(** * Retrieval engine and conversation orchestrator of the Quita Goias assistant

    A shallow embedding of [vector_retriever.py] (class [VectorRetriever]) and
    [rag_chain.py] (class [RAGChain]), with the parts of [database.py] and
    [settings.py] they use.

    Conventions of the embedding.
    - A Python [str] is a [string] holding its UTF-8 bytes; [Py.len] counts
      code points, as Python's [len] does.
    - A [datetime] is the number of microseconds since the epoch ([Z]); a
      [timedelta] is a number of microseconds.
    - A [float] that the code computes by a division or an addition is the
      rational that the double is: the quotient or the sum, rounded to the
      nearest double (53 significant bits, ties to even).
    - Scores (the [float]s of the vector store and of the cross-encoder) are
      an abstract type with Python's [<]; the theorems about ordering assume
      that [<] is a strict weak order on them (no NaN).
    - Effectful code lives in the monad [M]: a function of the [World] (the
      [chat_history] table, the clock, the log of calls made to the external
      collaborators) to an outcome and the new world.  A raised exception
      keeps the effects made before it.  Only instances of [Exception] are
      modelled; [print] calls are left out.
    - An external collaborator (the Chroma store, the cross-encoder, the
      Gemini model, the SQLite session) is what it answers to a call, as a
      function of the call's arguments: a value, or a raised exception. *)

From Stdlib Require Import List ZArith QArith Qabs String Ascii Bool Lia Lqa.
From Stdlib Require Import Sorted Permutation.
Import ListNotations.
Open Scope string_scope.
Open Scope Z_scope.

(** ** Python built-ins used by the source *)

Module Py.

Section ListSort.
Context {A K : Type}.
Variable key : A -> K.
(** Python's [<] on keys, the only comparison [list.sort] uses. *)
Variable lt : K -> K -> bool.

(** [x] stood before every element of [l] in the unsorted list, so it goes
    before the first element that is not smaller than it. *)
Fixpoint insert (x : A) (l : list A) : list A :=
  match l with
  | [] => [x]
  | y :: l' => if lt (key y) (key x) then y :: insert x l' else x :: y :: l'
  end.

(** The stable ascending sort. *)
Definition sort_forward (l : list A) : list A := fold_right insert [] l.

(** [l.sort(key=key, reverse=reverse)].  CPython reverses the list, runs the
    stable forward sort and reverses the outcome when [reverse] is set. *)
Definition list_sort (reverse : bool) (l : list A) : list A :=
  if reverse then rev (sort_forward (rev l)) else sort_forward l.

(** Keys that [<] does not tell apart. *)
Definition same_key (a b : K) : bool := negb (lt a b) && negb (lt b a).
End ListSort.

(** [l[:k]], also for a negative [k]. *)
Definition slice_to {A} (l : list A) (k : Z) : list A :=
  if 0 <=? k then firstn (Z.to_nat k) l
  else firstn (Z.to_nat (Z.of_nat (List.length l) + k)) l.

(** [zip(xs, ys)] stops at the shorter sequence. *)
Definition zip {A B} (xs : list A) (ys : list B) : list (A * B) := combine xs ys.

(** [sep.join(parts)]. *)
Fixpoint join (sep : string) (parts : list string) : string :=
  match parts with
  | [] => EmptyString
  | [p] => p
  | p :: rest => p ++ sep ++ join sep rest
  end.

(** [len(s)]: the UTF-8 bytes that do not continue a code point. *)
Fixpoint len (s : string) : Z :=
  match s with
  | EmptyString => 0
  | String c s' =>
      (if Z.land (Z.of_nat (nat_of_ascii c)) 192 =? 128 then 0 else 1) + len s'
  end.

Fixpoint drop (n : nat) (s : string) : string :=
  match n, s with
  | O, _ => s
  | S n', String _ s' => drop n' s'
  | S _, EmptyString => EmptyString
  end.

(** [s.replace(old, new)] for a non-empty [old]: every occurrence, left to
    right, without overlap.  [skip] counts the characters of a match still to
    be passed over. *)
Fixpoint replace_from (old new : string) (skip : nat) (s : string) : string :=
  match s with
  | EmptyString => EmptyString
  | String c s' =>
      match skip with
      | S n => replace_from old new n s'
      | O =>
          if prefix old s
          then new ++ replace_from old new ((String.length old - 1)%nat) s'
          else String c (replace_from old new O s')
      end
  end.

Definition replace (s old new : string) : string := replace_from old new O s.

End Py.


(** ** Exceptions, the world and the monad of effects *)

(** An instance of [Exception]; [str e] is its message. *)
Record Exception := { str : string }.

Inductive result (A : Type) : Type :=
| Ok (a : A)
| Raised (e : Exception).
Arguments Ok {A} a.
Arguments Raised {A} e.

(** The [float] scores and Python's [<] on them. *)
Class ScoreType := { Score : Type; score_lt : Score -> Score -> bool }.

(** [<] is a strict weak order on the scores met (none of them is NaN). *)
Class ScoreOrder {score_type : ScoreType} : Prop := {
  score_lt_asym : forall a b, score_lt a b = true -> score_lt b a = false;
  score_lt_negtrans :
    forall a b c, score_lt a b = false -> score_lt b c = false -> score_lt a c = false
}.

(** [langchain_core.documents.Document]. *)
Record Document := { page_content : string; metadata : list (string * string) }.

(** [langchain_core.messages]. *)
Inductive Message :=
| SystemMessage (content : string)
| HumanMessage (content : string)
| AIMessage (content : string).

(** The calls made to the external collaborators, in the order made. *)
Inductive Call :=
| SimilaritySearch (query : string) (k : Z)
| Predict (pairs : list (string * string))
| AInvoke (messages : list Message).

Definition datetime := Z.
Definition timedelta := Z.

(** *** Doubles

    The doubles met here are durations in seconds and ratios of counts, far
    from the overflow and the underflow of the format: only the significand
    rounds. *)

(** The exponent [e] that leaves [n / d / 2 ^ e] with 53 bits before the
    point, for positive [n] and [d]. *)
Definition binade (n d : Z) : Z :=
  let e := Z.log2 n - Z.log2 d - 53 in
  if 2 ^ 53 <=? (n * 2 ^ Z.max 0 (- e)) / (d * 2 ^ Z.max 0 e) then e + 1 else e.

(** The integer nearest to [N / D], the even one of two as near. *)
Definition round_half_even (N D : Z) : Z :=
  let m := N / D in
  match 2 * (N mod D) ?= D with
  | Lt => m
  | Gt => m + 1
  | Eq => if Z.even m then m else m + 1
  end.

(** The double nearest to [n / d], for positive [n] and [d]. *)
Definition nearest_double (n d : Z) : Q :=
  let e := binade n d in
  let A := 2 ^ Z.max 0 e in
  let B := 2 ^ Z.max 0 (- e) in
  (round_half_even (n * B) (d * A) * A) # Z.to_pos B.

(** The double nearest to a rational. *)
Definition to_double (x : Q) : Q :=
  match Qnum x with
  | Z0 => 0%Q
  | Z.pos n => nearest_double (Z.pos n) (QDen x)
  | Z.neg n => (- nearest_double (Z.pos n) (QDen x))%Q
  end.
Arguments to_double : simpl never.

(** [x + y] on two doubles. *)
Definition float_add (x y : Q) : Q := to_double (x + y).

(** [a / b] on two integers, [b] positive: one division, rounded once. *)
Definition truediv (a b : Z) : Q := to_double (a # Z.to_pos b).
Arguments truediv : simpl never.

(** [td.total_seconds()]: the microseconds divided by [10 ** 6], a division
    of integers, which rounds once. *)
Definition total_seconds (td : timedelta) : Q := to_double (td # 1000000).
Arguments total_seconds : simpl never.

Module settings.
(** The fields of [Settings] the core reads. *)
Record Settings := { SEARCH_K_RAW : Z; SEARCH_K_FINAL : Z }.

(** The values [settings.py] gives them. *)
Definition defaults : Settings := {| SEARCH_K_RAW := 20; SEARCH_K_FINAL := 3 |}.
End settings.

Module database.
(** A row of the [chat_history] table. *)
Record ChatHistory := {
  id : option Z;
  session_id : string;
  user_message : string;
  bot_response : string;
  is_synthetic : bool;
  user_chars : Z;
  bot_chars : Z;
  user_tokens : Z;
  bot_tokens : Z;
  request_start_time : datetime;
  retrieval_end_time : option datetime;
  response_end_time : option datetime;
  retrieval_duration_sec : Q;
  generation_duration_sec : Q;
  total_duration_sec : Q
}.

Definition with_id (row : ChatHistory) (i : Z) : ChatHistory :=
  {| id := Some i;
     session_id := session_id row;
     user_message := user_message row;
     bot_response := bot_response row;
     is_synthetic := is_synthetic row;
     user_chars := user_chars row;
     bot_chars := bot_chars row;
     user_tokens := user_tokens row;
     bot_tokens := bot_tokens row;
     request_start_time := request_start_time row;
     retrieval_end_time := retrieval_end_time row;
     response_end_time := response_end_time row;
     retrieval_duration_sec := retrieval_duration_sec row;
     generation_duration_sec := generation_duration_sec row;
     total_duration_sec := total_duration_sec row |}.

(** The key SQLite gives to a row inserted without one: one more than the
    largest key of the table. *)
Definition next_rowid (table : list ChatHistory) : Z :=
  1 + fold_right (fun row m => match id row with Some i => Z.max i m | None => m end)
                 0 table.

(** When a session of [AsyncSessionFactory] fails: on the [execute] of a
    select, on the [commit] of an added row. *)
Record AsyncSessionFactory := {
  execute_fault : list ChatHistory -> option Exception;
  commit_fault : list ChatHistory -> ChatHistory -> option Exception
}.
End database.

Record World := {
  chat_history : list database.ChatHistory;
  ticks : nat;
  calls : list Call
}.

Definition M (A : Type) : Type := World -> result A * World.

Definition ret {A} (a : A) : M A := fun w => (Ok a, w).

Definition raise {A} (e : Exception) : M A := fun w => (Raised e, w).

Definition bind {A B} (m : M A) (k : A -> M B) : M B :=
  fun w => match m w with
           | (Ok a, w') => k a w'
           | (Raised e, w') => (Raised e, w')
           end.

(** [try: body  except Exception as e: handler e]. *)
Definition try_except {A} (body : M A) (handler : Exception -> M A) : M A :=
  fun w => match body w with
           | (Ok a, w') => (Ok a, w')
           | (Raised e, w') => handler e w'
           end.

Notation "x <- m ;; k" := (bind m (fun x => k))
  (at level 61, m at next level, right associativity).

(** The world after one more call to a collaborator. *)
Definition logged (c : Call) (w : World) : World :=
  {| chat_history := chat_history w; ticks := ticks w;
     calls := (calls w ++ [c])%list |}.

(** The world after one more reading of the clock. *)
Definition ticked (w : World) : World :=
  {| chat_history := chat_history w; ticks := S (ticks w); calls := calls w |}.

(** The world after one more row of [chat_history] is committed. *)
Definition stored (row : database.ChatHistory) (w : World) : World :=
  {| chat_history := (chat_history w ++ [row])%list; ticks := ticks w;
     calls := calls w |}.

(** The answer of a collaborator, with the call logged. *)
Definition called {A} (c : Call) (answer : result A) : M A :=
  fun w => (answer, logged c w).

(** The calls made between two worlds. *)
Definition calls_since (w w' : World) : list Call :=
  skipn (List.length (calls w)) (calls w').

(** The message lists the model was invoked on, among some calls. *)
Definition invoked (cs : list Call) : list (list Message) :=
  flat_map (fun c => match c with AInvoke messages => [messages] | _ => [] end) cs.

(** [w'] is [w] after the calls [cs], whatever else happened. *)
Definition extends (w w' : World) (cs : list Call) : Prop :=
  calls w' = (calls w ++ cs)%list.

(** ** vector_retriever.py *)

Module vector_retriever.
Section VectorRetriever.
Context {score_type : ScoreType}.

(** The Chroma collection, as what a search answers: [(chunk, distance)]
    pairs, or a raised exception. *)
Record Chroma := {
  similarity_search_with_score : string -> Z -> result (list (Document * Score))
}.

(** The cross-encoder, as what [predict] answers on a batch of
    [[query, passage]] pairs. *)
Record CrossEncoder := {
  predict : list (string * string) -> result (list Score)
}.

Record VectorRetriever := { vectordb : Chroma; cross_encoder : CrossEncoder }.

Variable settings : settings.Settings.
Variable self : VectorRetriever.

Definition vectordb_similarity_search_with_score (query : string) (k : Z)
  : M (list (Document * Score)) :=
  called (SimilaritySearch query k)
         (similarity_search_with_score (vectordb self) query k).

Definition cross_encoder_predict (pairs : list (string * string))
  : M (list Score) :=
  called (Predict pairs) (predict (cross_encoder self) pairs).

(** [[[query, doc.page_content] for doc, score in results_with_scores]]. *)
Definition pairs_of (query : string) (results_with_scores : list (Document * Score))
  : list (string * string) :=
  map (fun '(doc, score) => (query, page_content doc)) results_with_scores.

(** One entry of [final_results]: the chunk with its new score. *)
Definition rescored (entry : (Document * Score) * Score) : Document * Score :=
  let '((doc, old_score), rerank_score) := entry in (doc, rerank_score).

Definition retrieve_context_with_scores (query : string)
  : M (list (Document * Score)) :=
  (* ETAPA 1: RECALL *)
  results_with_scores <-
    vectordb_similarity_search_with_score query (settings.SEARCH_K_RAW settings) ;;
  match results_with_scores with
  | [] => ret []
  | _ :: _ =>
      (* ETAPA 2: RE-RANKING *)
      try_except
        (let pairs := pairs_of query results_with_scores in
         rerank_scores <- cross_encoder_predict pairs ;;
         let reranked_results := Py.zip results_with_scores rerank_scores in
         let reranked_results := Py.list_sort snd score_lt true reranked_results in
         let top_k_results :=
           Py.slice_to reranked_results (settings.SEARCH_K_FINAL settings) in
         let final_results := map rescored top_k_results in
         ret final_results)
        (fun e => ret [])
  end.

(** [[doc for doc, score in results_with_scores]]. *)
Fixpoint docs_of (results_with_scores : list (Document * Score)) : list Document :=
  match results_with_scores with
  | [] => []
  | (doc, score) :: rest => doc :: docs_of rest
  end.

Definition retrieve_context (query : string) : M (list Document) :=
  results_with_scores <- retrieve_context_with_scores query ;;
  ret (docs_of results_with_scores).

Definition retrieve_context_vector_search_only (query : string)
  : M (list (Document * Score)) :=
  try_except
    (results_with_scores <-
       vectordb_similarity_search_with_score query (settings.SEARCH_K_FINAL settings) ;;
     match results_with_scores with
     | [] => ret []
     | _ :: _ =>
         let results_with_scores :=
           Py.list_sort snd score_lt false results_with_scores in
         ret results_with_scores
     end)
    (fun e => ret []).

(** [a] may stand before [b] when relevance scores must not increase. *)
Definition relevance_order {X} (a b : X * Score) : Prop :=
  score_lt (snd a) (snd b) = false.

(** [a] may stand before [b] when distance scores must not decrease. *)
Definition distance_order {X} (a b : X * Score) : Prop :=
  score_lt (snd b) (snd a) = false.

(** Entries whose score [<] does not tell apart from [s]. *)
Definition scored_as {X} (s : Score) (entry : X * Score) : bool :=
  Py.same_key score_lt s (snd entry).

(** The store answers a search for [k] chunks with [k] of them, or with all
    [stored] chunks when it holds fewer. *)
Definition answers_nearest (db : Chroma) (stored : nat) : Prop :=
  forall query k found,
    similarity_search_with_score db query k = Ok found ->
    List.length found = Nat.min (Z.to_nat k) stored.

(** The score-free view of a scored retrieval, as the specification words
    it: the first components, in the same order. *)
Definition projection (scored : result (list (Document * Score)))
  : result (list Document) :=
  match scored with
  | Ok results => Ok (map fst results)
  | Raised e => Raised e
  end.
End VectorRetriever.
End vector_retriever.

(** ** rag_chain.py *)

Module rag_chain.
Section RAGChain.
Context {score_type : ScoreType}.

(** The state of the graph.  [generate_response] fills every key of the
    initial state, so [state.get(k, default)] reads the key. *)
Record RAGState := {
  question : string;
  context : list Document;
  answer : string;
  history : list Message;
  request_start_time : datetime;
  retrieval_end_time : datetime;
  new_message_id : option Z;
  is_synthetic : bool
}.

(** The dict a node returns: the keys it writes.  [Some None] under
    [u_new_message_id] is the key written with [None]. *)
Record RAGUpdate := {
  u_question : option string;
  u_context : option (list Document);
  u_answer : option string;
  u_history : option (list Message);
  u_request_start_time : option datetime;
  u_retrieval_end_time : option datetime;
  u_new_message_id : option (option Z);
  u_is_synthetic : option bool
}.

Definition no_update : RAGUpdate :=
  {| u_question := None; u_context := None; u_answer := None; u_history := None;
     u_request_start_time := None; u_retrieval_end_time := None;
     u_new_message_id := None; u_is_synthetic := None |}.

Definition written {A} (old : A) (new : option A) : A :=
  match new with Some v => v | None => old end.

(** LangGraph writes the keys a node returned over the state. *)
Definition merge (state : RAGState) (u : RAGUpdate) : RAGState :=
  {| question := written (question state) (u_question u);
     context := written (context state) (u_context u);
     answer := written (answer state) (u_answer u);
     history := written (history state) (u_history u);
     request_start_time := written (request_start_time state) (u_request_start_time u);
     retrieval_end_time := written (retrieval_end_time state) (u_retrieval_end_time u);
     new_message_id := written (new_message_id state) (u_new_message_id u);
     is_synthetic := written (is_synthetic state) (u_is_synthetic u) |}.

(** The Gemini chat model, as what its calls answer. *)
Record ChatGoogleGenerativeAI := {
  ainvoke : list Message -> result string;
  get_num_tokens_from_messages : list Message -> result Z;
  get_num_tokens : string -> result Z
}.

Record RAGChain := {
  session_id : string;
  model : ChatGoogleGenerativeAI;
  retriever : vector_retriever.VectorRetriever;
  system_prompt : string
}.

(** The [metrics] dict of [save_message_async]. *)
Record Metrics := {
  m_user_chars : Z;
  m_bot_chars : Z;
  m_user_tokens : Z;
  m_bot_tokens : Z;
  m_request_start_time : datetime;
  m_retrieval_end_time : datetime;
  m_response_end_time : datetime
}.

(** What [generate_response] returns. *)
Record Response := { r_answer : string; r_message_id : option Z }.

Variable settings : settings.Settings.
Variable AsyncSessionFactory : database.AsyncSessionFactory.
(** The reading of the clock at its n-th call, and [strftime("%d/%m/%Y")]. *)
Variable clock : nat -> datetime.
Variable strftime_dmY : datetime -> string.
Variable self : RAGChain.

Definition datetime_now : M datetime :=
  fun w => (Ok (clock (ticks w)), ticked w).

Definition lift {A} (r : result A) : M A := fun w => (r, w).

Definition model_ainvoke (messages : list Message) : M string :=
  called (AInvoke messages) (ainvoke (model self) messages).

(** [select(ChatHistory).where(session_id == sid).order_by(request_start_time)],
    executed. *)
Definition select_chat_history (sid : string) : M (list database.ChatHistory) :=
  fun w =>
    match database.execute_fault AsyncSessionFactory (chat_history w) with
    | Some e => (Raised e, w)
    | None =>
        (Ok (Py.sort_forward database.request_start_time Z.ltb
               (filter (fun row => String.eqb (database.session_id row) sid)
                       (chat_history w))), w)
    end.

(** [session.add(chat_entry); commit(); refresh(chat_entry)]: the row as
    stored, with its key. *)
Definition add_commit_refresh (chat_entry : database.ChatHistory)
  : M database.ChatHistory :=
  fun w =>
    match database.commit_fault AsyncSessionFactory (chat_history w) chat_entry with
    | Some e => (Raised e, w)
    | None =>
        let row := match database.id chat_entry with
                   | Some _ => chat_entry
                   | None => database.with_id chat_entry
                               (database.next_rowid (chat_history w))
                   end in
        (Ok row, stored row w)
    end.

Definition load_history (state : RAGState) : M RAGUpdate :=
  history_records <- select_chat_history (session_id self) ;;
  let messages :=
    flat_map (fun record => [HumanMessage (database.user_message record);
                             AIMessage (database.bot_response record)])
             history_records in
  ret {| u_question := None; u_context := None; u_answer := None;
         u_history := Some messages;
         u_request_start_time := Some (request_start_time state);
         u_retrieval_end_time := None;
         u_new_message_id := Some None;
         u_is_synthetic := Some (is_synthetic state) |}.

Definition retrieve (state : RAGState) : M RAGUpdate :=
  let question := question state in
  retrieved_docs <-
    vector_retriever.retrieve_context settings (retriever self) question ;;
  now <- datetime_now ;;
  ret {| u_question := None; u_context := Some retrieved_docs; u_answer := None;
         u_history := None; u_request_start_time := None;
         u_retrieval_end_time := Some now;
         u_new_message_id := None; u_is_synthetic := None |}.

(** The [chat_entry] that [save_message_async] builds. *)
Definition ChatHistory_entry (user_msg bot_msg : string) (is_synthetic : bool)
    (metrics : Metrics) : database.ChatHistory :=
  (* Calcular duracoes *)
  let req_start := m_request_start_time metrics in
  let ret_end := m_retrieval_end_time metrics in
  let res_end := m_response_end_time metrics in
    {| database.id := None;
       database.session_id := session_id self;
       database.user_message := user_msg;
       database.bot_response := bot_msg;
       database.is_synthetic := is_synthetic;
       database.user_chars := m_user_chars metrics;
       database.bot_chars := m_bot_chars metrics;
       database.user_tokens := m_user_tokens metrics;
       database.bot_tokens := m_bot_tokens metrics;
       database.request_start_time := req_start;
       database.retrieval_end_time := Some ret_end;
       database.response_end_time := Some res_end;
       database.retrieval_duration_sec := total_seconds (ret_end - req_start);
       database.generation_duration_sec := total_seconds (res_end - ret_end);
       database.total_duration_sec := total_seconds (res_end - req_start) |}.

Definition save_message_async (user_msg bot_msg : string) (is_synthetic : bool)
    (metrics : Metrics) : M (option Z) :=
  let chat_entry := ChatHistory_entry user_msg bot_msg is_synthetic metrics in
  chat_entry <- add_commit_refresh chat_entry ;;
  ret (database.id chat_entry).

Definition newline : string := String (ascii_of_nat 10) EmptyString.

Definition generate (state : RAGState) : M RAGUpdate :=
  (* Timestamps *)
  let request_start_time := request_start_time state in
  let retrieval_end_time := retrieval_end_time state in
  let is_synthetic := is_synthetic state in
  let user_msg := question state in
  let docs_content :=
    Py.join (newline ++ newline) (map page_content (context state)) in
  (* Preparar Prompt *)
  now <- datetime_now ;;
  let current_date := strftime_dmY now in
  let final_system_prompt :=
    Py.replace
      (Py.replace (system_prompt self) "{{INSERIR_CONTEXTO_AQUI}}" docs_content)
      "{{DATA_ATUAL}}" current_date in
  let messages :=
    ([SystemMessage final_system_prompt] ++ history state
       ++ [HumanMessage user_msg])%list in
  (* Contagem de Tokens *)
  user_tokens <-
    try_except (lift (get_num_tokens_from_messages (model self) messages))
               (fun _ => ret 0) ;;
  (* Chamada Async ao LLM *)
  attempt <-
    try_except
      (answer <- model_ainvoke messages ;;
       response_end_time <- datetime_now ;;
       ret (inr (answer, response_end_time)))
      (fun e =>
         ret (inl {| u_question := None; u_context := None;
                     u_answer := Some ("Erro técnico: " ++ str e);
                     u_history := None; u_request_start_time := None;
                     u_retrieval_end_time := None;
                     u_new_message_id := Some None;
                     u_is_synthetic := None |})) ;;
  match attempt with
  | inl returned => ret returned
  | inr (answer, response_end_time) =>
      (* Metricas *)
      bot_tokens <-
        try_except (lift (get_num_tokens (model self) answer)) (fun _ => ret 0) ;;
      (* Salvar no Banco *)
      new_message_id <-
        save_message_async user_msg answer is_synthetic
          {| m_user_chars := Py.len user_msg;
             m_bot_chars := Py.len answer;
             m_user_tokens := user_tokens;
             m_bot_tokens := bot_tokens;
             m_request_start_time := request_start_time;
             m_retrieval_end_time := retrieval_end_time;
             m_response_end_time := response_end_time |} ;;
      ret {| u_question := None; u_context := None; u_answer := Some answer;
             u_history := None; u_request_start_time := None;
             u_retrieval_end_time := None;
             u_new_message_id := Some new_message_id;
             u_is_synthetic := None |}
  end.

(** The messages [generate] sends to the model when the clock reads [now]. *)
Definition messages_sent (state : RAGState) (now : datetime) : list Message :=
  ([SystemMessage
      (Py.replace
         (Py.replace (system_prompt self) "{{INSERIR_CONTEXTO_AQUI}}"
            (Py.join (newline ++ newline) (map page_content (context state))))
         "{{DATA_ATUAL}}" (strftime_dmY now))]
     ++ history state ++ [HumanMessage (question state)])%list.

(** A token count, or 0 when counting raised. *)
Definition count_or_zero (count : result Z) : Z :=
  match count with Ok n => n | Raised _ => 0 end.

(** The row [generate] asks to save for [answer], received at
    [response_end_time] for the messages sent at [now]. *)
Definition entry_generated (state : RAGState) (now : datetime) (answer : string)
    (response_end_time : datetime) : database.ChatHistory :=
  ChatHistory_entry (question state) answer (is_synthetic state)
    {| m_user_chars := Py.len (question state);
       m_bot_chars := Py.len answer;
       m_user_tokens :=
         count_or_zero
           (get_num_tokens_from_messages (model self) (messages_sent state now));
       m_bot_tokens := count_or_zero (get_num_tokens (model self) answer);
       m_request_start_time := request_start_time state;
       m_retrieval_end_time := retrieval_end_time state;
       m_response_end_time := response_end_time |}.

(** What [generate] returns when the model raised [e]. *)
Definition technical_error (e : Exception) : RAGUpdate :=
  {| u_question := None; u_context := None;
     u_answer := Some ("Erro técnico: " ++ str e);
     u_history := None; u_request_start_time := None;
     u_retrieval_end_time := None;
     u_new_message_id := Some None;
     u_is_synthetic := None |}.

(** What [generate] returns after saving [answer] under [new_message_id]. *)
Definition generated (answer : string) (new_message_id : option Z) : RAGUpdate :=
  {| u_question := None; u_context := None; u_answer := Some answer;
     u_history := None; u_request_start_time := None;
     u_retrieval_end_time := None;
     u_new_message_id := Some new_message_id;
     u_is_synthetic := None |}.

(** The initial state of [generate_response] called when the clock has
    been read [n] times. *)
Definition initial_state_at (n : nat) (question : string) (is_synthetic : bool)
  : RAGState :=
  {| question := question;
     context := [];
     answer := EmptyString;
     history := [];
     request_start_time := clock n;
     retrieval_end_time := clock (S n);
     new_message_id := None;
     is_synthetic := is_synthetic |}.

(** [START -> load_history -> retrieve -> generate], compiled and invoked. *)
Definition graph_ainvoke (initial_state : RAGState) : M RAGState :=
  u <- load_history initial_state ;;
  let state := merge initial_state u in
  u <- retrieve state ;;
  let state := merge state u in
  u <- generate state ;;
  ret (merge state u).

Definition generate_response (question : string) (is_synthetic : bool)
  : M Response :=
  request_start_time <- datetime_now ;;
  retrieval_end_time <- datetime_now ;;
  let initial_state :=
    {| question := question;
       context := [];
       answer := EmptyString;
       history := [];
       request_start_time := request_start_time;
       retrieval_end_time := retrieval_end_time;
       new_message_id := None;
       is_synthetic := is_synthetic |} in
  result <- graph_ainvoke initial_state ;;
  ret {| r_answer := answer result; r_message_id := new_message_id result |}.

(** The ways a call of [generate_response] in world [w] ends with outcome
    [r] in world [w']. *)
Inductive ends (question : string) (is_synthetic : bool) (w : World)
    (r : result Response) (w' : World) : Prop :=
| history_raised (e : Exception) :
    database.execute_fault AsyncSessionFactory (chat_history w) = Some e ->
    r = Raised e ->
    chat_history w' = chat_history w ->
    invoked (calls_since w w') = [] ->
    ends question is_synthetic w r w'
| recall_raised (e : Exception) :
    vector_retriever.similarity_search_with_score
      (vector_retriever.vectordb (retriever self)) question
      (settings.SEARCH_K_RAW settings) = Raised e ->
    r = Raised e ->
    chat_history w' = chat_history w ->
    invoked (calls_since w w') = [] ->
    ends question is_synthetic w r w'
| model_raised (messages : list Message) (e : Exception) :
    invoked (calls_since w w') = [messages] ->
    ainvoke (model self) messages = Raised e ->
    r = Ok {| r_answer := "Erro técnico: " ++ str e; r_message_id := None |} ->
    chat_history w' = chat_history w ->
    ends question is_synthetic w r w'
| commit_raised (messages : list Message) (answer : string) (metrics : Metrics)
    (e : Exception) :
    invoked (calls_since w w') = [messages] ->
    ainvoke (model self) messages = Ok answer ->
    database.commit_fault AsyncSessionFactory (chat_history w)
      (ChatHistory_entry question answer is_synthetic metrics) = Some e ->
    r = Raised e ->
    chat_history w' = chat_history w ->
    ends question is_synthetic w r w'
| turn_saved (messages : list Message) (answer : string) (metrics : Metrics) :
    invoked (calls_since w w') = [messages] ->
    ainvoke (model self) messages = Ok answer ->
    database.commit_fault AsyncSessionFactory (chat_history w)
      (ChatHistory_entry question answer is_synthetic metrics) = None ->
    m_request_start_time metrics = clock (ticks w) ->
    m_retrieval_end_time metrics = clock (2 + ticks w) ->
    m_response_end_time metrics = clock (4 + ticks w) ->
    r = Ok {| r_answer := answer;
              r_message_id := Some (database.next_rowid (chat_history w)) |} ->
    chat_history w' =
      (chat_history w
         ++ [database.with_id (ChatHistory_entry question answer is_synthetic metrics)
               (database.next_rowid (chat_history w))])%list ->
    ends question is_synthetic w r w'.
End RAGChain.
End rag_chain.

(** ** A scenario to run the code on

    Five stored chunks, the default settings (recall 20, keep 3), scores in
    thousandths, a clock that advances one second per reading. *)

Module Scenario.
#[export] Instance milli_scores : ScoreType := {| Score := Z; score_lt := Z.ltb |}.

Definition chunk (text : string) : Document :=
  {| page_content := text; metadata := [("source", "lei.pdf")] |}.

Definition stored_chunks : list (Document * Z) :=
  [(chunk "prazo", 310); (chunk "desconto", 120); (chunk "parcelas", 310);
   (chunk "adesao", 450); (chunk "multa", 200)].

(** A store that answers with its first [k] chunks. *)
Definition store : vector_retriever.Chroma :=
  {| vector_retriever.similarity_search_with_score :=
       fun _ k => Ok (firstn (Z.to_nat k) stored_chunks) |}.

Definition empty_store : vector_retriever.Chroma :=
  {| vector_retriever.similarity_search_with_score := fun _ _ => Ok [] |}.

Definition index_unavailable : Exception := {| str := "index unavailable" |}.

Definition broken_store : vector_retriever.Chroma :=
  {| vector_retriever.similarity_search_with_score :=
       fun _ _ => Raised index_unavailable |}.

(** A scorer that gives "desconto" and "adesao" the same, highest score. *)
Definition relevance (pair : string * string) : Z :=
  if String.eqb (snd pair) "desconto" then 900
  else if String.eqb (snd pair) "adesao" then 900
  else if String.eqb (snd pair) "multa" then 500
  else 100.

Definition scorer : vector_retriever.CrossEncoder :=
  {| vector_retriever.predict := fun pairs => Ok (map relevance pairs) |}.

Definition out_of_memory : Exception := {| str := "out of memory" |}.

Definition broken_scorer : vector_retriever.CrossEncoder :=
  {| vector_retriever.predict := fun _ => Raised out_of_memory |}.

Definition retriever (db : vector_retriever.Chroma)
    (encoder : vector_retriever.CrossEncoder) : vector_retriever.VectorRetriever :=
  {| vector_retriever.vectordb := db; vector_retriever.cross_encoder := encoder |}.

Definition gemini : rag_chain.ChatGoogleGenerativeAI :=
  {| rag_chain.ainvoke := fun _ => Ok "O prazo e de 30 dias.";
     rag_chain.get_num_tokens_from_messages := fun _ => Ok 42;
     rag_chain.get_num_tokens := fun _ => Ok 7 |}.

Definition quota_exceeded : Exception := {| str := "429 quota exceeded" |}.

Definition gemini_down : rag_chain.ChatGoogleGenerativeAI :=
  {| rag_chain.ainvoke := fun _ => Raised quota_exceeded;
     rag_chain.get_num_tokens_from_messages := fun _ => Raised quota_exceeded;
     rag_chain.get_num_tokens := fun _ => Raised quota_exceeded |}.

Definition sqlite : database.AsyncSessionFactory :=
  {| database.execute_fault := fun _ => None;
     database.commit_fault := fun _ _ => None |}.

Definition disk_full : Exception := {| str := "database or disk is full" |}.


Definition clock (n : nat) : datetime := 1000000 * Z.of_nat n.

Definition strftime_dmY (_ : datetime) : string := "03/11/2026".

Definition chain (llm : rag_chain.ChatGoogleGenerativeAI)
    (retriever : vector_retriever.VectorRetriever) : rag_chain.RAGChain :=
  {| rag_chain.session_id := "sessao-1";
     rag_chain.model := llm;
     rag_chain.retriever := retriever;
     rag_chain.system_prompt :=
       "Hoje: {{DATA_ATUAL}}. Documentos: {{INSERIR_CONTEXTO_AQUI}}" |}.

Definition fresh : World := {| chat_history := []; ticks := 0; calls := [] |}.

(** [generate_response] in the scenario. *)
Definition ask (db : database.AsyncSessionFactory) (self : rag_chain.RAGChain)
    (question : string) (is_synthetic : bool) : M rag_chain.Response :=
  rag_chain.generate_response settings.defaults db clock strftime_dmY self
    question is_synthetic.
End Scenario.

(** ** The stored history as messages *)

(** The messages [load_history] builds from the [chat_history] table: the
    turns of the session by request time, each as the user's message and the
    assistant's. *)
Definition session_history {score_type : ScoreType} (self : rag_chain.RAGChain)
    (table : list database.ChatHistory) : list Message :=
  flat_map (fun record => [HumanMessage (database.user_message record);
                           AIMessage (database.bot_response record)])
           (Py.sort_forward database.request_start_time Z.ltb
              (filter (fun row => String.eqb (database.session_id row)
                                             (rag_chain.session_id self))
                      table)).

(** A user's message, then an assistant's, and so on. *)
Fixpoint alternating (messages : list Message) : bool :=
  match messages with
  | [] => true
  | HumanMessage _ :: AIMessage _ :: rest => alternating rest
  | _ => false
  end.

(** ** database.py and rag_chain.py: the feedback on a turn *)

Module database_feedback.
(** A row of the [feedback] table. *)
Record Feedback := {
  id : option Z;
  message_id : Z;
  rating : string;
  comment : option string;
  timestamp : datetime
}.

(** The key SQLite gives to a feedback inserted without one. *)
Definition next_rowid (table : list Feedback) : Z :=
  1 + fold_right (fun row m => match id row with Some i => Z.max i m | None => m end)
                 0 table.

(** When a session of [AsyncSessionFactory] fails on these tables: on the
    select of a feedback, on the commit that turns the feedback table into a
    new one, on the select of the turns joined with their feedback. *)
Record Session := {
  select_fault : list Feedback -> option Exception;
  commit_fault : list Feedback -> list Feedback -> option Exception;
  join_fault : list database.ChatHistory -> list Feedback -> option Exception
}.
End database_feedback.

(** The world with the [feedback] table. *)
Record Tables := { world : World; feedback_table : list database_feedback.Feedback }.

Module rag_chain_feedback.
Section RAGChain.
Context {score_type : ScoreType}.
Variable session : database_feedback.Session.
Variable clock : nat -> datetime.
Variable self : rag_chain.RAGChain.

(** The first element that [p] holds of, changed by [f]: the object the
    session loaded, modified and added again. *)
Fixpoint update_first {A} (p : A -> bool) (f : A -> A) (l : list A) : list A :=
  match l with
  | [] => []
  | x :: l' => if p x then f x :: l' else x :: update_first p f l'
  end.

(** [Feedback.message_id == message_id]. *)
Definition of_message (message_id : Z) (feedback : database_feedback.Feedback) : bool :=
  database_feedback.message_id feedback =? message_id.

Definition save_feedback (message_id : Z) (rating : string) (comment : option string)
  : Tables -> result unit * Tables :=
  fun s =>
    let table := feedback_table s in
    match database_feedback.select_fault session table with
    | Some e => (Raised e, s)
    | None =>
        let existing_feedback := find (of_message message_id) table in
        let now := clock (ticks (world s)) in
        let s := {| world := ticked (world s); feedback_table := table |} in
        let table' :=
          match existing_feedback with
          | Some _ =>
              update_first (of_message message_id)
                (fun existing_feedback =>
                   {| database_feedback.id := database_feedback.id existing_feedback;
                      database_feedback.message_id :=
                        database_feedback.message_id existing_feedback;
                      database_feedback.rating := rating;
                      database_feedback.comment := comment;
                      database_feedback.timestamp := now |})
                table
          | None =>
              (table ++ [{| database_feedback.id :=
                              Some (database_feedback.next_rowid table);
                            database_feedback.message_id := message_id;
                            database_feedback.rating := rating;
                            database_feedback.comment := comment;
                            database_feedback.timestamp := now |}])%list
          end in
        match database_feedback.commit_fault session table table' with
        | Some e => (Raised e, s)
        | None => (Ok tt, {| world := world s; feedback_table := table' |})
        end
    end.

(** [ChatHistory.id == Feedback.message_id]. *)
Definition joins (history : database.ChatHistory)
    (feedback : database_feedback.Feedback) : bool :=
  match database.id history with
  | Some i => i =? database_feedback.message_id feedback
  | None => false
  end.

(** [select(ChatHistory, Feedback.rating).outerjoin(Feedback, ...)]: each turn
    with the rating of each feedback on it, or once without a rating. *)
Definition outerjoin (histories : list database.ChatHistory)
    (feedbacks : list database_feedback.Feedback)
  : list (database.ChatHistory * option string) :=
  flat_map (fun history =>
              match filter (joins history) feedbacks with
              | [] => [(history, None)]
              | matching =>
                  map (fun feedback =>
                         (history, Some (database_feedback.rating feedback)))
                      matching
              end)
           histories.

Definition get_history_for_display
  : Tables -> result (list (option Z * string * string * option string)) * Tables :=
  fun s =>
    match database_feedback.join_fault session (chat_history (world s))
            (feedback_table s) with
    | Some e => (Raised e, s)
    | None =>
        let joined := outerjoin (chat_history (world s)) (feedback_table s) in
        let selected :=
          filter (fun row => String.eqb (database.session_id (fst row))
                                        (rag_chain.session_id self))
                 joined in
        let ordered :=
          Py.sort_forward (fun row => database.request_start_time (fst row)) Z.ltb
                          selected in
        let formatted_history :=
          map (fun row => (database.id (fst row), database.user_message (fst row),
                           database.bot_response (fst row), snd row))
              ordered in
        (Ok formatted_history, s)
    end.

(** The two messages of a displayed turn. *)
Definition messages_of_row (row : option Z * string * string * option string)
  : list Message :=
  let '(_, user_message, bot_response, _) := row in
  [HumanMessage user_message; AIMessage bot_response].
End RAGChain.
End rag_chain_feedback.

(** ** validate_vector_db.py: saving an evaluation of retrieved chunks

    A [dict] is the list of its items in insertion order, with distinct keys;
    the banner the function shows ([st.success] or [st.error]) is its value. *)

Module validate_vector_db.
Section Evaluation.
Context {score_type : ScoreType}.

(** A row of [validation_runs]. *)
Record ValidationRun := {
  id : option Z;
  timestamp : datetime;
  query : string;
  search_type : string;
  hit_rate_eval : Z;
  mrr_eval : Q;
  precision_at_k_eval : Q
}.

(** A row of [validation_retrieved_chunks]. *)
Record ValidationRetrievedChunk := {
  chunk_id : option Z;
  run_id : Z;
  rank : Z;
  chunk_content : string;
  source : option string;
  page : option Z;
  score : Score;
  is_correct_eval : Z
}.

Record Evaluations := {
  clock_ticks : nat;
  validation_runs : list ValidationRun;
  validation_retrieved_chunks : list ValidationRetrievedChunk
}.

(** When the session on the engine fails: on the commit of the run, on the
    commit of its chunks. *)
Record Session := {
  run_commit_fault : list ValidationRun -> ValidationRun -> option Exception;
  chunks_commit_fault :
    list ValidationRetrievedChunk -> list ValidationRetrievedChunk -> option Exception
}.

Inductive Banner :=
| st_success (run_id : Z)
| st_error (e : Exception).

Variable session : Session.
Variable clock : nat -> datetime.
(** [int(text)], which raises on what is no integer. *)
Variable int : string -> result Z.

(** [enumerate(items)], counting from [i]. *)
Fixpoint enumerate_from {A} (i : Z) (items : list A) : list (Z * A) :=
  match items with
  | [] => []
  | item :: rest => (i, item) :: enumerate_from (i + 1) rest
  end.

(** The [results_map] of [display_search_results]:
    [{i + 1: (doc, score) for i, (doc, score) in enumerate(results_with_scores)}]. *)
Definition results_map (results_with_scores : list (Document * Score))
  : list (Z * (Document * Score)) :=
  map (fun entry => (fst entry + 1, snd entry)) (enumerate_from 0 results_with_scores).

(** [d.get(key, default)] on a dict with integer keys. *)
Definition get {V} (d : list (Z * V)) (key : Z) (default : V) : V :=
  match find (fun item => fst item =? key) d with
  | Some item => snd item
  | None => default
  end.

(** [doc.metadata.get(key, None)]. *)
Definition metadata_get (doc : Document) (key : string) : option string :=
  match find (fun item => String.eqb (fst item) key) (metadata doc) with
  | Some item => Some (snd item)
  | None => None
  end.

Definition next_run_id (table : list ValidationRun) : Z :=
  1 + fold_right (fun row m => match id row with Some i => Z.max i m | None => m end)
                 0 table.

Definition next_chunk_id (table : list ValidationRetrievedChunk) : Z :=
  1 + fold_right (fun row m => match chunk_id row with Some i => Z.max i m | None => m end)
                 0 table.

(** The [chunk_entry] built for one item of [results_map]. *)
Definition chunk_entry (run_id : Z) (hit_rate_evals : list (Z * bool))
    (item : Z * (Document * Score)) : ValidationRetrievedChunk :=
  let '(rank, (doc, score)) := item in
  let is_correct := if get hit_rate_evals rank false then 1 else 0 in
  let score_float := score in
  let page_val :=
    match metadata_get doc "page" with
    | None => None
    | Some page_val =>
        match int page_val with
        | Ok n => Some n
        | Raised _ => None
        end
    end in
  {| chunk_id := None;
     run_id := run_id;
     rank := rank;
     chunk_content := page_content doc;
     source := Some (match metadata_get doc "source" with
                     | Some source => source
                     | None => "N/A"
                     end);
     page := page_val;
     score := score_float;
     is_correct_eval := is_correct |}.

(** The rows as the commit stores them, keyed from [next] on. *)
Fixpoint keyed_from (next : Z) (rows : list ValidationRetrievedChunk)
  : list ValidationRetrievedChunk :=
  match rows with
  | [] => []
  | row :: rest =>
      {| chunk_id := Some next; run_id := run_id row; rank := rank row;
         chunk_content := chunk_content row; source := source row;
         page := page row; score := score row;
         is_correct_eval := is_correct_eval row |}
        :: keyed_from (next + 1) rest
  end.

Definition save_evaluation_to_db (query search_type : string)
    (results_map : list (Z * (Document * Score)))
    (hit_rate_evals : list (Z * bool)) (mrr_score : Q)
  : Evaluations -> Banner * Evaluations :=
  fun s =>
    (* 1. Calcular Metricas *)
    let hit_rate := if existsb snd hit_rate_evals then 1 else 0 in
    let mrr := mrr_score in
    let k := Z.of_nat (List.length results_map) in
    let hit_count := Z.of_nat (List.length (filter snd hit_rate_evals)) in
    let precision := if 0 <? k then truediv hit_count k else 0%Q in
    (* 2. Criar e Salvar a Rodada *)
    let run_entry :=
      {| id := None; timestamp := clock (clock_ticks s); query := query;
         search_type := search_type; hit_rate_eval := hit_rate;
         mrr_eval := mrr; precision_at_k_eval := precision |} in
    let s := {| clock_ticks := S (clock_ticks s);
                validation_runs := validation_runs s;
                validation_retrieved_chunks := validation_retrieved_chunks s |} in
    match run_commit_fault session (validation_runs s) run_entry with
    | Some e => (st_error e, s)
    | None =>
        let run_id := next_run_id (validation_runs s) in
        let run_entry :=
          {| id := Some run_id; timestamp := timestamp run_entry;
             query := query; search_type := search_type;
             hit_rate_eval := hit_rate; mrr_eval := mrr;
             precision_at_k_eval := precision |} in
        let s := {| clock_ticks := clock_ticks s;
                    validation_runs := (validation_runs s ++ [run_entry])%list;
                    validation_retrieved_chunks := validation_retrieved_chunks s |} in
        (* 3. Criar e Salvar os Chunks *)
        let chunk_entries :=
          keyed_from (next_chunk_id (validation_retrieved_chunks s))
                     (map (chunk_entry run_id hit_rate_evals) results_map) in
        match chunks_commit_fault session (validation_retrieved_chunks s)
                chunk_entries with
        | Some e => (st_error e, s)
        | None =>
            (st_success run_id,
             {| clock_ticks := clock_ticks s;
                validation_runs := validation_runs s;
                validation_retrieved_chunks :=
                  (validation_retrieved_chunks s ++ chunk_entries)%list |})
        end
    end.

(** The chunks among [rows] that were marked as correct. *)
Definition marked_correct (rows : list ValidationRetrievedChunk)
  : list ValidationRetrievedChunk :=
  filter (fun row => is_correct_eval row =? 1) rows.
End Evaluation.
End validate_vector_db.

(** ** More of the scenario: stored turns and feedback *)

Module ScenarioMore.
Import Scenario.

(** A store that answers by distance. *)
Definition nearest_store : vector_retriever.Chroma :=
  {| vector_retriever.similarity_search_with_score :=
       fun _ k =>
         Ok (firstn (Z.to_nat k)
               [(chunk "desconto", 120); (chunk "multa", 200); (chunk "prazo", 310);
                (chunk "parcelas", 310); (chunk "adesao", 450)]) |}.

(** A scorer that agrees with the order of [nearest_store]. *)
Definition agreeing_scorer : vector_retriever.CrossEncoder :=
  {| vector_retriever.predict :=
       fun pairs => Ok (firstn (List.length pairs) [950; 700; 400; 400; 50]) |}.


Definition turn (key : Z) (session question answer : string) (asked : datetime)
  : database.ChatHistory :=
  {| database.id := Some key;
     database.session_id := session;
     database.user_message := question;
     database.bot_response := answer;
     database.is_synthetic := false;
     database.user_chars := Py.len question;
     database.bot_chars := Py.len answer;
     database.user_tokens := 0;
     database.bot_tokens := 0;
     database.request_start_time := asked;
     database.retrieval_end_time := Some (asked + 1);
     database.response_end_time := Some (asked + 2);
     database.retrieval_duration_sec := total_seconds 1;
     database.generation_duration_sec := total_seconds 1;
     database.total_duration_sec := total_seconds 2 |}.

Definition other_turn : database.ChatHistory :=
  turn 2 "sessao-2" "Quem pode aderir?" "Todo contribuinte." 20.

(** Two turns of the session, stored later turn first, and one of another. *)
Definition talked : World :=
  {| chat_history :=
       [turn 3 "sessao-1" "E a multa?" "Reduzida." 30;
        other_turn;
        turn 1 "sessao-1" "Qual o prazo?" "30 dias." 10];
     ticks := 0; calls := [] |}.

Definition liked (key message : Z) : database_feedback.Feedback :=
  {| database_feedback.id := Some key;
     database_feedback.message_id := message;
     database_feedback.rating := "like";
     database_feedback.comment := None;
     database_feedback.timestamp := 40 |}.

Definition rated : Tables := {| world := talked; feedback_table := [liked 1 3] |}.

Definition sound_session : database_feedback.Session :=
  {| database_feedback.select_fault := fun _ => None;
     database_feedback.commit_fault := fun _ _ => None;
     database_feedback.join_fault := fun _ _ => None |}.

Definition self : rag_chain.RAGChain := chain gemini (retriever store scorer).

(** A clock that reads 0.1 s at the end of the retrieval and 0.3 s at the end
    of the generation of a request begun at 0. *)
Definition uneven_clock (n : nat) : datetime :=
  if (n <=? 1)%nat then 0 else if (n <=? 3)%nat then 100000 else 300000.

(** The three chunks of the reranked answer, the first and the third judged
    correct, and the first judged the best. *)
Definition reranked : list (Document * Z) :=
  [(chunk "desconto", 900); (chunk "adesao", 900); (chunk "multa", 500)].

(** The dict the evaluation page builds from them. *)
Definition ranked : list (Z * (Document * Z)) :=
  validate_vector_db.results_map (score_type := milli_scores) reranked.

Definition judged : list (Z * bool) := [(1, true); (2, false); (3, true)].

Definition engine : validate_vector_db.Session :=
  {| validate_vector_db.run_commit_fault := fun _ _ => None;
     validate_vector_db.chunks_commit_fault := fun _ _ => None |}.

Definition engine_full : validate_vector_db.Session :=
  {| validate_vector_db.run_commit_fault := fun _ _ => None;
     validate_vector_db.chunks_commit_fault := fun _ _ => Some disk_full |}.

Definition not_an_integer : Exception := {| str := "invalid literal for int()" |}.

Definition int (text : string) : result Z :=
  if String.eqb text "12" then Ok 12 else Raised not_an_integer.

Definition unevaluated : validate_vector_db.Evaluations :=
  {| validate_vector_db.clock_ticks := 0;
     validate_vector_db.validation_runs := [];
     validate_vector_db.validation_retrieved_chunks := [] |}.

(** [save_evaluation_to_db] on the reranked answer. *)
Definition evaluate (db : validate_vector_db.Session)
  : validate_vector_db.Banner * validate_vector_db.Evaluations :=
  validate_vector_db.save_evaluation_to_db db clock int "Qual o prazo?"
    "reranked_USER" ranked judged 1 unevaluated.
End ScenarioMore.

(** * Facts *)

(** ** Lists *)

Lemma StronglySorted_snoc {A} (R : A -> A -> Prop) l x :
  StronglySorted R l -> Forall (fun a => R a x) l -> StronglySorted R (l ++ [x]).
Proof.
  induction 1 as [|y l Hs IH Hall]; intros Hx; simpl.
  - repeat constructor.
  - inversion Hx; subst. constructor; [now apply IH|].
    apply Forall_app. split; [assumption|now constructor].
Qed.

Lemma StronglySorted_rev {A} (R : A -> A -> Prop) l :
  StronglySorted R l -> StronglySorted (fun a b => R b a) (rev l).
Proof.
  induction 1 as [|y l Hs IH Hall]; simpl; [constructor|].
  apply StronglySorted_snoc; [assumption|].
  apply Forall_rev. exact Hall.
Qed.

Lemma filter_rev {A} (p : A -> bool) l : filter p (rev l) = rev (filter p l).
Proof.
  induction l as [|x l IH]; [reflexivity|].
  simpl. rewrite filter_app, IH. simpl.
  destruct (p x); simpl; [reflexivity|now rewrite app_nil_r].
Qed.

Lemma In_firstn {A} n (l : list A) x : In x (firstn n l) -> In x l.
Proof.
  revert l. induction n as [|n IH]; intros [|y l]; simpl; try tauto.
  intros [->|Hx]; [now left|right; now apply IH].
Qed.

Lemma StronglySorted_firstn {A} (R : A -> A -> Prop) n l :
  StronglySorted R l -> StronglySorted R (firstn n l).
Proof.
  intros Hs. revert n. induction Hs as [|y l Hs IH Hall]; intros [|n]; simpl;
    try constructor; [apply IH|].
  apply Forall_forall. intros z Hz. apply In_firstn in Hz.
  revert z Hz. now apply Forall_forall.
Qed.

Lemma slice_to_sorted {A} (R : A -> A -> Prop) (l : list A) k :
  StronglySorted R l -> StronglySorted R (Py.slice_to l k).
Proof. intros. unfold Py.slice_to. destruct (0 <=? k); now apply StronglySorted_firstn. Qed.

Lemma slice_to_length {A} (l : list A) k :
  0 <= k -> Z.of_nat (List.length (Py.slice_to l k)) <= k.
Proof.
  intros Hk. unfold Py.slice_to.
  destruct (Z.leb_spec 0 k); [|lia].
  rewrite length_firstn. lia.
Qed.

Lemma slice_to_firstn {A} (l : list A) k : 0 <= k -> Py.slice_to l k = firstn (Z.to_nat k) l.
Proof. intros Hk. unfold Py.slice_to. now apply Z.leb_le in Hk as ->. Qed.

(** ** The sort *)

Section ListSortFacts.
Context {A K : Type}.
Variable key : A -> K.
Variable lt : K -> K -> bool.
Hypothesis lt_asym : forall a b, lt a b = true -> lt b a = false.
Hypothesis lt_negtrans :
  forall a b c, lt a b = false -> lt b c = false -> lt a c = false.

(** [a] may stand before [b] in ascending order. *)
Let asc (a b : A) : Prop := lt (key b) (key a) = false.
(** [a] may stand before [b] in descending order. *)
Let desc (a b : A) : Prop := lt (key a) (key b) = false.

Lemma insert_perm x l : Permutation (Py.insert key lt x l) (x :: l).
Proof.
  induction l as [|y l IH]; simpl; [reflexivity|].
  destruct (lt (key y) (key x)); [|reflexivity].
  rewrite IH. apply perm_swap.
Qed.

Lemma sort_forward_perm l : Permutation (Py.sort_forward key lt l) l.
Proof.
  induction l as [|x l IH]; simpl; [constructor|].
  rewrite insert_perm. now constructor.
Qed.

Lemma insert_sorted x l :
  StronglySorted asc l -> StronglySorted asc (Py.insert key lt x l).
Proof.
  induction 1 as [|y l Hs IH Hall]; simpl.
  - repeat constructor.
  - destruct (lt (key y) (key x)) eqn:E.
    + constructor; [assumption|].
      eapply Permutation_Forall; [symmetry; apply insert_perm|].
      constructor; [apply lt_asym, E | assumption].
    + constructor; [now constructor|].
      constructor; [exact E|].
      eapply Forall_impl; [|exact Hall].
      intros z Hz. unfold asc in *. eapply lt_negtrans; eassumption.
Qed.

Lemma sort_forward_sorted l : StronglySorted asc (Py.sort_forward key lt l).
Proof.
  induction l as [|x l IH]; simpl; [constructor|]. now apply insert_sorted.
Qed.

Lemma insert_filter k x l :
  filter (fun a => Py.same_key lt k (key a)) (Py.insert key lt x l)
  = filter (fun a => Py.same_key lt k (key a)) (x :: l).
Proof.
  induction l as [|y l IH]; [reflexivity|].
  simpl Py.insert. destruct (lt (key y) (key x)) eqn:E; [|reflexivity].
  simpl in *. rewrite IH.
  destruct (Py.same_key lt k (key x)) eqn:Ex;
    destruct (Py.same_key lt k (key y)) eqn:Ey; try reflexivity.
  exfalso. unfold Py.same_key in *.
  apply andb_prop in Ex, Ey. destruct Ex as [Ex1 Ex2], Ey as [Ey1 Ey2].
  apply negb_true_iff in Ex1, Ex2, Ey1, Ey2.
  rewrite (lt_negtrans _ _ _ Ey2 Ex1) in E. discriminate.
Qed.

Lemma sort_forward_stable k l :
  filter (fun a => Py.same_key lt k (key a)) (Py.sort_forward key lt l)
  = filter (fun a => Py.same_key lt k (key a)) l.
Proof.
  induction l as [|x l IH]; [reflexivity|].
  simpl Py.sort_forward. rewrite insert_filter. simpl. now rewrite IH.
Qed.

Lemma list_sort_perm reverse l : Permutation (Py.list_sort key lt reverse l) l.
Proof.
  destruct reverse; simpl; [|apply sort_forward_perm].
  rewrite <- Permutation_rev, sort_forward_perm. symmetry. apply Permutation_rev.
Qed.

Lemma list_sort_ascending l : StronglySorted asc (Py.list_sort key lt false l).
Proof. apply sort_forward_sorted. Qed.

Lemma list_sort_descending l : StronglySorted desc (Py.list_sort key lt true l).
Proof.
  simpl. apply (StronglySorted_rev asc). apply sort_forward_sorted.
Qed.

Lemma list_sort_stable reverse k l :
  filter (fun a => Py.same_key lt k (key a)) (Py.list_sort key lt reverse l)
  = filter (fun a => Py.same_key lt k (key a)) l.
Proof.
  destruct reverse; simpl; [|apply sort_forward_stable].
  rewrite filter_rev, sort_forward_stable, filter_rev. apply rev_involutive.
Qed.

End ListSortFacts.

(** ** The retrieval engine *)

Lemma skipn_length_app {A} (l l' : list A) : skipn (List.length l) (l ++ l') = l'.
Proof. induction l as [|x l IH]; [reflexivity|exact IH]. Qed.

Lemma extends_refl w : extends w w [].
Proof. unfold extends. now rewrite app_nil_r. Qed.

Lemma extends_ticked w w' cs : extends w w' cs -> extends w (ticked w') cs.
Proof. exact (fun H => H). Qed.

Lemma extends_stored w w' cs row : extends w w' cs -> extends w (stored row w') cs.
Proof. exact (fun H => H). Qed.

Lemma extends_logged w w' cs c :
  extends w w' cs -> extends w (logged c w') (cs ++ [c]).
Proof. unfold extends. simpl. intros ->. now rewrite app_assoc. Qed.

Lemma extends_calls_since w w' cs : extends w w' cs -> calls_since w w' = cs.
Proof. unfold extends, calls_since. intros ->. apply skipn_length_app. Qed.

Create HintDb world.
#[local] Hint Resolve extends_refl extends_ticked extends_stored extends_logged
  : world.

Lemma In_invoked messages cs : In (AInvoke messages) cs <-> In messages (invoked cs).
Proof.
  unfold invoked. rewrite in_flat_map. split.
  - intros Hin. exists (AInvoke messages). split; [assumption|now left].
  - intros [c [Hin Hc]]. destruct c; simpl in Hc; try contradiction.
    destruct Hc as [->|[]]. assumption.
Qed.

Lemma calls_since_logged w c : calls_since w (logged c w) = [c].
Proof. unfold calls_since, logged. simpl. apply skipn_length_app. Qed.

Lemma calls_since_logged2 w c d : calls_since w (logged d (logged c w)) = [c; d].
Proof.
  unfold calls_since, logged. simpl. rewrite <- app_assoc. apply skipn_length_app.
Qed.

Lemma StronglySorted_weaken {A} (R R' : A -> A -> Prop) l :
  (forall a b, R a b -> R' a b) -> StronglySorted R l -> StronglySorted R' l.
Proof.
  intros HR. induction 1 as [|x l Hs IH Hall]; constructor; [assumption|].
  eapply Forall_impl; [|exact Hall]. intros b. apply HR.
Qed.

Lemma StronglySorted_map {A B} (f : A -> B) (R : B -> B -> Prop) l :
  StronglySorted (fun a b => R (f a) (f b)) l -> StronglySorted R (map f l).
Proof.
  induction 1 as [|x l Hs IH Hall]; simpl; constructor; [assumption|].
  apply Forall_map. exact Hall.
Qed.

Section RetrieverFacts.
Import vector_retriever.
Context {score_type : ScoreType}.
Variable settings : settings.Settings.
Variable self : VectorRetriever.

Let K_raw := settings.SEARCH_K_RAW settings.
Let K_final := settings.SEARCH_K_FINAL settings.

(** The run of Recall+Rerank, case by case. *)
Lemma retrieve_context_with_scores_run query w :
  retrieve_context_with_scores settings self query w =
  let w1 := logged (SimilaritySearch query K_raw) w in
  match similarity_search_with_score (vectordb self) query K_raw with
  | Raised e => (Raised e, w1)
  | Ok [] => (Ok [], w1)
  | Ok ((_ :: _) as recalled) =>
      let w2 := logged (Predict (pairs_of query recalled)) w1 in
      match predict (cross_encoder self) (pairs_of query recalled) with
      | Raised e => (Ok [], w2)
      | Ok scores =>
          (Ok (map rescored
                 (Py.slice_to (Py.list_sort snd score_lt true (Py.zip recalled scores))
                              K_final)), w2)
      end
  end.
Proof.
  unfold retrieve_context_with_scores, vectordb_similarity_search_with_score,
    cross_encoder_predict, bind, try_except, called, ret, K_raw, K_final.
  destruct (similarity_search_with_score _ _ _) as [[|c cs]|e]; try reflexivity.
  cbv zeta.
  destruct (predict _ _) as [scores|e]; reflexivity.
Qed.

(** The run of Recall-only, case by case. *)
Lemma retrieve_context_vector_search_only_run query w :
  retrieve_context_vector_search_only settings self query w =
  (match similarity_search_with_score (vectordb self) query K_final with
   | Raised e => Ok []
   | Ok found => Ok (Py.list_sort snd score_lt false found)
   end, logged (SimilaritySearch query K_final) w).
Proof.
  unfold retrieve_context_vector_search_only,
    vectordb_similarity_search_with_score, bind, try_except, called, ret, K_final.
  destruct (similarity_search_with_score _ _ _) as [[|c cs]|e]; reflexivity.
Qed.

Lemma docs_of_map_fst results : docs_of results = map fst results.
Proof.
  induction results as [|[doc score] rest IH]; simpl; [reflexivity|now rewrite IH].
Qed.

Lemma retrieve_context_run query w :
  retrieve_context settings self query w =
  match retrieve_context_with_scores settings self query w with
  | (Ok results, w') => (Ok (docs_of results), w')
  | (Raised e, w') => (Raised e, w')
  end.
Proof.
  unfold retrieve_context, bind, ret.
  destruct (retrieve_context_with_scores _ _ _ _) as [[r|e] w']; reflexivity.
Qed.

Lemma map_fst_zip {X Y} (xs : list X) (ys : list Y) :
  List.length ys = List.length xs -> map fst (Py.zip xs ys) = xs.
Proof.
  revert ys. induction xs as [|x xs IH]; intros [|y ys]; simpl; try discriminate;
    [reflexivity|].
  intros [= Hlen]. now rewrite (IH ys Hlen).
Qed.

Lemma snd_rescored entry : snd (rescored entry) = snd entry.
Proof. now destruct entry as [[doc old_score] rerank_score]. Qed.

Lemma score_lt_irrefl {order : ScoreOrder} a : score_lt a a = false.
Proof.
  destruct (score_lt a a) eqn:E; [|reflexivity].
  now rewrite (score_lt_asym _ _ E) in E.
Qed.

Lemma sorted_head_dominates {X} (R : X -> X -> Prop) l top :
  (forall a, R a a) -> StronglySorted R l -> hd_error l = Some top ->
  Forall (R top) l.
Proof.
  intros Hrefl Hs Hhd. destruct l as [|x l]; [discriminate|].
  injection Hhd as ->. inversion Hs; subst. constructor; [apply Hrefl|assumption].
Qed.

Lemma hd_error_firstn {X} n (l : list X) top :
  hd_error (firstn n l) = Some top -> hd_error l = Some top.
Proof. destruct n, l; simpl; congruence. Qed.

(** C1. Recall+Rerank returns the recall candidates zipped with their
    relevance scores, sorted by relevance score in non-increasing order with
    equal scores kept in recall order, cut to the first [K_final] entries:
    every returned list is non-increasing, has at most [K_final] entries,
    and its first score is not below any other candidate's. *)
Theorem rerank_is_stable_descending_top_k {order : ScoreOrder} query w :
  0 <= K_final ->
  (forall result w',
      retrieve_context_with_scores settings self query w = (Ok result, w') ->
      StronglySorted relevance_order result /\
      Z.of_nat (List.length result) <= K_final /\
      (forall top, hd_error result = Some top ->
                   Forall (relevance_order top) result)) /\
  (forall recalled scores,
      similarity_search_with_score (vectordb self) query K_raw = Ok recalled ->
      predict (cross_encoder self) (pairs_of query recalled) = Ok scores ->
      let scored := Py.zip recalled scores in
      let ranked := Py.list_sort snd score_lt true scored in
      (List.length scores = List.length recalled -> map fst scored = recalled) /\
      Permutation ranked scored /\
      StronglySorted relevance_order ranked /\
      (forall s, filter (scored_as s) ranked = filter (scored_as s) scored) /\
      fst (retrieve_context_with_scores settings self query w)
      = Ok (map rescored (firstn (Z.to_nat K_final) ranked)) /\
      (forall top, hd_error (firstn (Z.to_nat K_final) ranked) = Some top ->
                   Forall (relevance_order top) scored)).
Proof.
  intros HK.
  assert (Hsorted : forall scored : list ((Document * Score) * Score),
             StronglySorted relevance_order (Py.list_sort snd score_lt true scored)).
  { intros scored. apply (list_sort_descending snd score_lt);
      [apply score_lt_asym | apply score_lt_negtrans]. }
  assert (Hres : forall scored : list ((Document * Score) * Score),
             StronglySorted relevance_order
               (map rescored (Py.slice_to (Py.list_sort snd score_lt true scored)
                                          K_final))).
  { intros scored. apply StronglySorted_map.
    eapply StronglySorted_weaken; [|apply slice_to_sorted, Hsorted].
    intros a b. unfold relevance_order. now rewrite !snd_rescored. }
  split.
  - intros result w' Hrun. rewrite retrieve_context_with_scores_run in Hrun.
    fold K_raw K_final in Hrun. cbv zeta in Hrun.
    assert (Hgoal : StronglySorted relevance_order result ->
                    Z.of_nat (List.length result) <= K_final ->
                    StronglySorted relevance_order result /\
                    Z.of_nat (List.length result) <= K_final /\
                    (forall top, hd_error result = Some top ->
                                 Forall (relevance_order top) result)).
    { intros Hs Hl. repeat split; try assumption.
      intros top. apply sorted_head_dominates; [|assumption].
      intros a. apply score_lt_irrefl. }
    destruct (similarity_search_with_score _ _ _) as [[|c cs]|e];
      [injection Hrun as <- _; apply Hgoal; [constructor|simpl; lia]
      | | discriminate].
    destruct (predict _ _) as [scores|e]; injection Hrun as <- _;
      [|apply Hgoal; [constructor|simpl; lia]].
    apply Hgoal; [apply Hres|].
    rewrite length_map. now apply slice_to_length.
  - intros recalled scores Hrecall Hpredict scored ranked.
    assert (Hperm : Permutation ranked scored) by apply list_sort_perm.
    repeat split.
    + intros Hlen. now apply map_fst_zip.
    + exact Hperm.
    + apply Hsorted.
    + intros s. apply (list_sort_stable snd score_lt score_lt_negtrans).
    + rewrite retrieve_context_with_scores_run. fold K_raw K_final. cbv zeta.
      rewrite Hrecall. destruct recalled as [|c cs].
      * subst ranked scored. simpl. now rewrite firstn_nil.
      * rewrite Hpredict. simpl. now rewrite slice_to_firstn.
    + intros top Htop. apply hd_error_firstn in Htop.
      eapply Permutation_Forall; [exact Hperm|].
      apply sorted_head_dominates; [|apply Hsorted|exact Htop].
      intros a. apply score_lt_irrefl.
Qed.

(** C3. When the cross-encoder call made by Recall+Rerank raises, the
    operation returns the empty list and raises nothing. *)
Theorem scorer_failure_degrades_to_empty query w r w' pairs e :
  retrieve_context_with_scores settings self query w = (r, w') ->
  In (Predict pairs) (calls_since w w') ->
  predict (cross_encoder self) pairs = Raised e ->
  r = Ok [].
Proof.
  rewrite retrieve_context_with_scores_run. fold K_raw. cbv zeta.
  intros Hrun Hcall Hraise.
  destruct (similarity_search_with_score _ _ _) as [[|c cs]|e0].
  - now injection Hrun as <- _.
  - destruct (predict _ (pairs_of _ _)) as [scores|e1] eqn:Hp;
      injection Hrun as <- <-; [|reflexivity].
    rewrite calls_since_logged2 in Hcall.
    destruct Hcall as [Hc|[Hc|[]]]; [discriminate|].
    injection Hc as Hpairs. subst pairs.
    change (predict (cross_encoder self) (pairs_of query (c :: cs)) = Raised e)
      in Hraise.
    congruence.
  - injection Hrun as <- <-. rewrite calls_since_logged in Hcall.
    destruct Hcall as [Hc|[]]. discriminate.
Qed.

(** C6. Recall-only asks the store once, for [K_final] chunks, and returns
    what the store answered sorted by distance score in non-decreasing
    order; a non-empty result has as many entries as the store answered,
    which is [K_final], or all the store holds when that is fewer. *)
Theorem recall_only_is_ascending_k_final {order : ScoreOrder} query w :
  let run := retrieve_context_vector_search_only settings self query w in
  calls_since w (snd run) = [SimilaritySearch query K_final] /\
  (exists result, fst run = Ok result /\ StronglySorted distance_order result) /\
  (forall found,
      similarity_search_with_score (vectordb self) query K_final = Ok found ->
      exists result,
        fst run = Ok result /\ Permutation result found /\
        List.length result = List.length found /\
        (forall s, filter (scored_as s) result = filter (scored_as s) found)) /\
  (forall stored result,
      answers_nearest (vectordb self) stored ->
      fst run = Ok result -> result <> [] ->
      List.length result = Nat.min (Z.to_nat K_final) stored).
Proof.
  intros run. subst run. rewrite retrieve_context_vector_search_only_run.
  fold K_final. simpl fst. simpl snd.
  assert (Hperm : forall found : list (Document * Score),
             Permutation (Py.list_sort snd score_lt false found) found)
    by (intros; apply list_sort_perm).
  split; [apply calls_since_logged|]. split; [|split].
  - destruct (similarity_search_with_score _ _ _) as [found|e];
      eexists; split; try reflexivity; [|constructor].
    apply (list_sort_ascending snd score_lt);
      [apply score_lt_asym | apply score_lt_negtrans].
  - intros found ->. eexists. split; [reflexivity|]. split; [apply Hperm|].
    split; [apply Permutation_length, Hperm|].
    intros s. exact (list_sort_stable snd score_lt score_lt_negtrans false s found).
  - intros stored result Hstore Hrun Hne.
    destruct (similarity_search_with_score _ _ _) as [found|e] eqn:Hfound;
      injection Hrun as <-; [|congruence].
    etransitivity; [apply Permutation_length, Hperm|].
    now apply (Hstore query).
Qed.

(** C9. [retrieve_context] is the projection of [retrieve_context_with_scores]
    on the chunks: same chunks, same order, same effects. *)
Theorem retrieve_context_is_projection query w :
  retrieve_context settings self query w =
  (projection (fst (retrieve_context_with_scores settings self query w)),
   snd (retrieve_context_with_scores settings self query w)).
Proof.
  rewrite retrieve_context_run.
  destruct (retrieve_context_with_scores _ _ _ _) as [[results|e] w'];
    [|reflexivity].
  simpl. now rewrite docs_of_map_fst.
Qed.

(** C10. When the store's search raises, Recall-only returns the empty list
    and raises nothing. *)
Theorem recall_only_failure_degrades_to_empty query w e :
  similarity_search_with_score (vectordb self) query K_final = Raised e ->
  retrieve_context_vector_search_only settings self query w
  = (Ok [], logged (SimilaritySearch query K_final) w).
Proof.
  intros Hraise. rewrite retrieve_context_vector_search_only_run.
  fold K_final. now rewrite Hraise.
Qed.
End RetrieverFacts.

(** ** Doubles *)

Lemma round_half_even_near N D :
  0 < D -> 2 * Z.abs (round_half_even N D * D - N) <= D.
Proof.
  intros HD. unfold round_half_even.
  pose proof (Z.div_mod N D ltac:(lia)) as Hdm.
  pose proof (Z.mod_pos_bound N D HD) as Hr.
  set (m := N / D) in *. set (r := N mod D) in *.
  destruct (Z.compare_spec (2 * r) D); [destruct (Z.even m)| |]; nia.
Qed.

Lemma round_half_even_nonneg N D : 0 <= N -> 0 < D -> 0 <= round_half_even N D.
Proof.
  intros HN HD. unfold round_half_even.
  pose proof (Z.div_pos N D HN HD).
  destruct (2 * (N mod D) ?= D); [destruct (Z.even _)| |]; lia.
Qed.

Lemma binade_lower n d :
  0 < n -> 0 < d ->
  2 ^ 52 * (d * 2 ^ Z.max 0 (binade n d)) <= n * 2 ^ Z.max 0 (- binade n d).
Proof.
  intros Hn Hd. unfold binade.
  pose proof (Z.log2_spec n Hn) as [Hn1 Hn2].
  pose proof (Z.log2_spec d Hd) as [Hd1 Hd2].
  pose proof (Z.log2_nonneg n) as Hln. pose proof (Z.log2_nonneg d) as Hld.
  set (ln := Z.log2 n) in *. set (ld := Z.log2 d) in *.
  set (e := ln - ld - 53).
  destruct (Z.leb_spec (2 ^ 53) (n * 2 ^ Z.max 0 (- e) / (d * 2 ^ Z.max 0 e)))
    as [Hbig|Hsmall].
  - assert (HD0 : 0 < d * 2 ^ Z.max 0 e)
      by (apply Z.mul_pos_pos; [lia|apply Z.pow_pos_nonneg; lia]).
    assert (Hq : 2 ^ 53 * (d * 2 ^ Z.max 0 e) <= n * 2 ^ Z.max 0 (- e)).
    { pose proof (Z.mul_div_le (n * 2 ^ Z.max 0 (- e)) _ HD0). nia. }
    change (2 ^ 53) with (2 * 2 ^ 52) in Hq.
    destruct (Z.le_gt_cases 0 e) as [He|He].
    + rewrite (Z.max_r 0 (e + 1)) by lia.
      rewrite (Z.max_l 0 (- (e + 1))) by lia.
      rewrite (Z.max_r 0 e) in Hq by lia.
      rewrite (Z.max_l 0 (- e)) in Hq by lia.
      rewrite Z.pow_add_r by lia. change (2 ^ 1) with 2. lia.
    + rewrite (Z.max_l 0 (e + 1)) by lia.
      rewrite (Z.max_r 0 (- (e + 1))) by lia.
      rewrite (Z.max_l 0 e) in Hq by lia.
      rewrite (Z.max_r 0 (- e)) in Hq by lia.
      replace (- e) with (- (e + 1) + 1) in Hq by lia.
      rewrite Z.pow_add_r in Hq by lia. change (2 ^ 1) with 2 in Hq.
      change (2 ^ 0) with 1 in *. lia.
  - destruct (Z.le_gt_cases 0 e) as [He|He].
    + rewrite (Z.max_r 0 e) by lia. rewrite (Z.max_l 0 (- e)) by lia.
      change (2 ^ 0) with 1.
      assert (2 ^ 52 * (2 ^ (ld + 1) * 2 ^ e) = 2 ^ ln).
      { rewrite <- !Z.pow_add_r by lia. f_equal. unfold e. lia. }
      assert (0 < 2 ^ e) by (apply Z.pow_pos_nonneg; lia).
      nia.
    + rewrite (Z.max_l 0 e) by lia. rewrite (Z.max_r 0 (- e)) by lia.
      change (2 ^ 0) with 1.
      assert (2 ^ 52 * 2 ^ (ld + 1) = 2 ^ ln * 2 ^ (- e)).
      { rewrite <- !Z.pow_add_r by lia. f_equal. unfold e. lia. }
      assert (0 < 2 ^ (- e)) by (apply Z.pow_pos_nonneg; lia).
      nia.
Qed.

Lemma nearest_double_near n d :
  (0 < n)%Z ->
  let x := n # d in
  let v := nearest_double n (Z.pos d) in
  ((v - x) * 9007199254740992 <= x /\ (x - v) * 9007199254740992 <= x)%Q.
Proof.
  intros Hn x v. subst x v. unfold nearest_double.
  pose proof (binade_lower n (Z.pos d) Hn (Pos2Z.is_pos d)) as Hlow.
  set (e := binade n (Z.pos d)) in *.
  assert (HA : 0 < 2 ^ Z.max 0 e) by (apply Z.pow_pos_nonneg; lia).
  assert (HB : 0 < 2 ^ Z.max 0 (- e)) by (apply Z.pow_pos_nonneg; lia).
  set (A := 2 ^ Z.max 0 e) in *. set (B := 2 ^ Z.max 0 (- e)) in *.
  assert (HD : 0 < Z.pos d * A) by lia.
  pose proof (round_half_even_near (n * B) (Z.pos d * A) HD) as Hnear.
  set (m := round_half_even (n * B) (Z.pos d * A)) in *.
  unfold Qle, Qminus, Qplus, Qopp, Qmult. cbn [Qnum Qden].
  rewrite !Pos2Z.inj_mul, !Z2Pos.id by lia.
  change (2 ^ 52) with 4503599627370496 in Hlow.
  split; nia.
Qed.

Lemma nearest_double_nonneg n d :
  (0 < n)%Z -> (0 < d)%Z -> (0 <= nearest_double n d)%Q.
Proof.
  intros Hn Hd. unfold nearest_double, Qle. cbn [Qnum Qden].
  set (e := binade n d).
  assert (HA : 0 < 2 ^ Z.max 0 e) by (apply Z.pow_pos_nonneg; lia).
  assert (HB : 0 < 2 ^ Z.max 0 (- e)) by (apply Z.pow_pos_nonneg; lia).
  pose proof (round_half_even_nonneg (n * 2 ^ Z.max 0 (- e)) (d * 2 ^ Z.max 0 e)
                ltac:(nia) ltac:(nia)).
  nia.
Qed.

Lemma round_half_even_le N D T :
  0 < D -> N <= D * T -> round_half_even N D <= T.
Proof.
  intros HD HN. unfold round_half_even.
  pose proof (Z.div_mod N D ltac:(lia)) as Hdm.
  pose proof (Z.mod_pos_bound N D HD) as Hr.
  set (m := N / D) in *. set (r := N mod D) in *.
  assert (m <= T) by nia.
  destruct (Z.compare_spec (2 * r) D); [destruct (Z.even m)| |]; nia.
Qed.

Lemma binade_of_fraction n d : 0 < n -> n <= d -> binade n d <= - 52.
Proof.
  intros Hn Hle. unfold binade.
  pose proof (Z.log2_le_mono n d Hle).
  destruct (_ <=? _); lia.
Qed.

Lemma nearest_double_le_1 n d :
  (0 < n)%Z -> (n <= d)%Z -> (nearest_double n d <= 1)%Q.
Proof.
  intros Hn Hle. unfold nearest_double.
  pose proof (binade_of_fraction n d Hn Hle) as He.
  set (e := binade n d) in *.
  rewrite (Z.max_l 0 e) by lia. rewrite (Z.max_r 0 (- e)) by lia.
  change (2 ^ 0) with 1.
  assert (HB : 0 < 2 ^ (- e)) by (apply Z.pow_pos_nonneg; lia).
  pose proof (round_half_even_le (n * 2 ^ (- e)) (d * 1) (2 ^ (- e))
                ltac:(lia) ltac:(nia)) as Hm.
  unfold Qle. cbn [Qnum Qden]. rewrite Z2Pos.id by lia. lia.
Qed.

(** A non-negative rational and its double: the same sign, and a distance
    of at most the rational over 2 ^ 53. *)
Lemma to_double_near x :
  (0 <= x ->
   0 <= to_double x /\
   (to_double x - x) * 9007199254740992 <= x /\
   (x - to_double x) * 9007199254740992 <= x)%Q.
Proof.
  destruct x as [[|n|n] d]; unfold to_double; cbn [Qnum].
  - intros _. unfold Qle. simpl. lia.
  - intros _. split.
    + apply nearest_double_nonneg; reflexivity.
    + apply (nearest_double_near (Z.pos n) d). reflexivity.
  - intros Hneg. unfold Qle in Hneg. simpl in Hneg. lia.
Qed.

Lemma to_double_le_1 x : (0 <= x -> x <= 1 -> to_double x <= 1)%Q.
Proof.
  destruct x as [[|n|n] d]; unfold to_double; cbn [Qnum]; intros H0 H1.
  - discriminate.
  - apply nearest_double_le_1; [reflexivity|].
    unfold Qle in H1. simpl in H1. cbn [Qden]. lia.
  - unfold Qle in H0. simpl in H0. lia.
Qed.

Lemma total_seconds_sum earlier middle later :
  earlier <= middle -> middle <= later ->
  let retrieval := total_seconds (middle - earlier) in
  let generation := total_seconds (later - middle) in
  let total := total_seconds (later - earlier) in
  let elapsed := (later - earlier) # 1000000 in
  (Qabs (total - (retrieval + generation)) <= elapsed * (1 # 2 ^ 52) /\
   Qabs (total - float_add retrieval generation) <= elapsed * (1 # 2 ^ 51))%Q.
Proof.
  intros H1 H2 retrieval generation total elapsed.
  assert (Ha : (0 <= (middle - earlier) # 1000000)%Q) by (unfold Qle; simpl; lia).
  assert (Hb : (0 <= (later - middle) # 1000000)%Q) by (unfold Qle; simpl; lia).
  assert (Hc : (0 <= elapsed)%Q) by (unfold elapsed, Qle; simpl; lia).
  assert (Hsum : (elapsed == ((middle - earlier) # 1000000)
                             + ((later - middle) # 1000000))%Q)
    by (unfold elapsed, Qeq, Qplus; simpl; lia).
  destruct (to_double_near _ Ha) as [Ha0 [Ha1 Ha2]].
  destruct (to_double_near _ Hb) as [Hb0 [Hb1 Hb2]].
  destruct (to_double_near _ Hc) as [Hc0 [Hc1 Hc2]].
  fold (total_seconds (middle - earlier)) in Ha0, Ha1, Ha2.
  fold (total_seconds (later - middle)) in Hb0, Hb1, Hb2.
  unfold elapsed in Hc0, Hc1, Hc2.
  fold (total_seconds (later - earlier)) in Hc0, Hc1, Hc2.
  fold retrieval in Ha0, Ha1, Ha2. fold generation in Hb0, Hb1, Hb2.
  fold total elapsed in Hc0, Hc1, Hc2.
  assert (Hs : (0 <= retrieval + generation)%Q) by lra.
  destruct (to_double_near _ Hs) as [Hs0 [Hs1 Hs2]].
  fold (float_add retrieval generation) in Hs0, Hs1, Hs2.
  set (A := ((middle - earlier) # 1000000)%Q) in *.
  set (B := ((later - middle) # 1000000)%Q) in *.
  set (sum := float_add retrieval generation) in *.
  clearbody retrieval generation total elapsed A B sum.
  change (1 # 2 ^ 52)%Q with (1 # 4503599627370496)%Q.
  change (1 # 2 ^ 51)%Q with (1 # 2251799813685248)%Q.
  split; apply Qabs_Qle_condition; split; lra.
Qed.

(** ** The conversation orchestrator *)

Section RAGChainFacts.
Import rag_chain.
Context {score_type : ScoreType}.
Variable settings : settings.Settings.
Variable AsyncSessionFactory : database.AsyncSessionFactory.
Variable clock : nat -> datetime.
Variable strftime_dmY : datetime -> string.
Variable self : RAGChain.

Let K_raw := settings.SEARCH_K_RAW settings.

(** The run of [load_history]. *)
Lemma load_history_run state w :
  load_history AsyncSessionFactory self state w =
  match database.execute_fault AsyncSessionFactory (chat_history w) with
  | Some e => (Raised e, w)
  | None =>
      (Ok {| u_question := None; u_context := None; u_answer := None;
             u_history :=
               Some (flat_map
                       (fun record => [HumanMessage (database.user_message record);
                                       AIMessage (database.bot_response record)])
                       (Py.sort_forward database.request_start_time Z.ltb
                          (filter (fun row => String.eqb (database.session_id row)
                                                         (session_id self))
                                  (chat_history w))));
             u_request_start_time := Some (request_start_time state);
             u_retrieval_end_time := None;
             u_new_message_id := Some None;
             u_is_synthetic := Some (is_synthetic state) |}, w)
  end.
Proof.
  unfold load_history, select_chat_history, bind, ret.
  destruct (database.execute_fault _ _); reflexivity.
Qed.

(** The run of [retrieve]. *)
Lemma retrieve_run state w :
  retrieve settings clock self state w =
  match vector_retriever.retrieve_context_with_scores
          settings (retriever self) (question state) w with
  | (Raised e, w') => (Raised e, w')
  | (Ok results, w') =>
      (Ok {| u_question := None; u_context := Some (map fst results);
             u_answer := None; u_history := None; u_request_start_time := None;
             u_retrieval_end_time := Some (clock (ticks w'));
             u_new_message_id := None; u_is_synthetic := None |}, ticked w')
  end.
Proof.
  unfold retrieve, bind, ret, datetime_now.
  rewrite retrieve_context_run.
  destruct (vector_retriever.retrieve_context_with_scores _ _ _ _)
    as [[results|e] w']; [|reflexivity].
  now rewrite docs_of_map_fst.
Qed.

(** The run of [generate], case by case. *)
Lemma generate_run state w :
  generate AsyncSessionFactory clock strftime_dmY self state w =
  let now := clock (ticks w) in
  let messages := messages_sent strftime_dmY self state now in
  let w1 := logged (AInvoke messages) (ticked w) in
  match ainvoke (model self) messages with
  | Raised e => (Ok (technical_error e), w1)
  | Ok answer =>
      let entry :=
        entry_generated strftime_dmY self state now answer (clock (S (ticks w))) in
      match database.commit_fault AsyncSessionFactory (chat_history w) entry with
      | Some e => (Raised e, ticked w1)
      | None =>
          let new_message_id := database.next_rowid (chat_history w) in
          (Ok (generated answer (Some new_message_id)),
           stored (database.with_id entry new_message_id) (ticked w1))
      end
  end.
Proof.
  unfold generate, save_message_async, add_commit_refresh, model_ainvoke,
    datetime_now, lift, bind, try_except, called, ret, entry_generated,
    count_or_zero, messages_sent.
  cbv beta zeta.
  destruct (get_num_tokens_from_messages _ _) as [user_tokens|e1];
    (destruct (ainvoke _ _) as [answer|e]; [|reflexivity]);
    destruct (get_num_tokens _ _) as [bot_tokens|e2];
    cbv beta iota zeta;
    destruct (database.commit_fault _ _ _); reflexivity.
Qed.

(** Every call of [generate_response] ends in one of the five ways. *)
Lemma generate_response_ends question is_synthetic w r w' :
  generate_response settings AsyncSessionFactory clock strftime_dmY self
    question is_synthetic w = (r, w') ->
  ends settings AsyncSessionFactory clock self question is_synthetic w r w'.
Proof.
  unfold generate_response, graph_ainvoke, bind, datetime_now, ret.
  rewrite load_history_run. simpl chat_history.
  destruct (database.execute_fault _ _) as [e|] eqn:Hexec.
  { intros [= <- <-]. eapply history_raised; eauto.
    erewrite extends_calls_since by eauto with world. reflexivity. }
  rewrite retrieve_run, retrieve_context_with_scores_run. cbv zeta.
  simpl rag_chain.question.
  destruct (vector_retriever.similarity_search_with_score _ _ _)
    as [recalled|e] eqn:Hrecall.
  2:{ intros [= <- <-]. eapply recall_raised; eauto.
      erewrite extends_calls_since by eauto with world. reflexivity. }
  destruct recalled as [|c cs];
    [|destruct (vector_retriever.predict _ _) as [scores|e]];
    rewrite generate_run; cbv zeta;
    (destruct (ainvoke _ _) as [answer|e'] eqn:Hllm;
     [destruct (database.commit_fault _ _ _) as [e'|] eqn:Hcommit|]);
    intros [= <- <-]; unfold entry_generated in *;
    [ eapply commit_raised | eapply turn_saved | eapply model_raised
    | eapply commit_raised | eapply turn_saved | eapply model_raised
    | eapply commit_raised | eapply turn_saved | eapply model_raised ];
    try exact Hllm; try exact Hcommit; try reflexivity;
    erewrite extends_calls_since by eauto 10 with world; reflexivity.
Qed.

Lemma invoked_none messages w w' :
  invoked (calls_since w w') = [] -> ~ In (AInvoke messages) (calls_since w w').
Proof. intros Hnone Hin. apply In_invoked in Hin. now rewrite Hnone in Hin. Qed.

Lemma invoked_once messages sent w w' :
  invoked (calls_since w w') = [sent] -> In (AInvoke messages) (calls_since w w') ->
  messages = sent.
Proof.
  intros Hone Hin. apply In_invoked in Hin. rewrite Hone in Hin.
  now destruct Hin as [->|[]].
Qed.

Lemma app_same_nil {X} (l l' : list X) : l = (l ++ l')%list -> l' = [].
Proof.
  intros Heq. rewrite <- (app_nil_r l) in Heq at 1.
  now apply app_inv_head in Heq.
Qed.

Lemma total_seconds_nonneg earlier later :
  earlier <= later -> (0 <= total_seconds (later - earlier)%Z)%Q.
Proof.
  intros Hle. apply to_double_near. unfold Qle. simpl. lia.
Qed.

(** C2. When the model call made by [generate_response] raises [e], the
    call returns the answer ["Erro técnico: " ++ str e] with no message
    identifier, and the [chat_history] table is as it was. *)
Theorem llm_failure_answers_error_and_saves_nothing
    question is_synthetic w r w' messages e :
  generate_response settings AsyncSessionFactory clock strftime_dmY self
    question is_synthetic w = (r, w') ->
  In (AInvoke messages) (calls_since w w') ->
  ainvoke (model self) messages = Raised e ->
  r = Ok {| r_answer := "Erro técnico: " ++ str e; r_message_id := None |} /\
  chat_history w' = chat_history w.
Proof.
  intros Hrun Hcall Hraise. apply generate_response_ends in Hrun.
  destruct Hrun as [e0 _ _ _ Hnone | e0 _ _ _ Hnone
                   | sent e0 Hone Hllm Hr Hdb
                   | sent answer metrics e0 Hone Hllm _ _ _
                   | sent answer metrics Hone Hllm _ _ _ _ _ _];
    try (now apply invoked_none with (messages := messages) in Hnone);
    apply (invoked_once _ _ _ _ Hone) in Hcall; subst sent; try congruence.
  split; [|assumption]. congruence.
Qed.

(** C4. The row a call of [generate_response] persists holds, as its three
    durations, the doubles of the seconds between its bounding timestamps:
    the retrieval and generation durations are not negative when the
    timestamps are in order (as they are under a clock that never goes
    back), and then the total duration is their sum within the rounding of
    doubles: it is at most the elapsed seconds over 2 ^ 52 away from their
    exact sum, and at most the elapsed seconds over 2 ^ 51 away from their
    sum as a double. *)
Theorem persisted_durations_are_timestamp_differences
    question is_synthetic w r w' row :
  generate_response settings AsyncSessionFactory clock strftime_dmY self
    question is_synthetic w = (r, w') ->
  chat_history w' = (chat_history w ++ [row])%list ->
  exists ret_end res_end,
    let req_start := database.request_start_time row in
    database.retrieval_end_time row = Some ret_end /\
    database.response_end_time row = Some res_end /\
    database.retrieval_duration_sec row = total_seconds (ret_end - req_start) /\
    database.generation_duration_sec row = total_seconds (res_end - ret_end) /\
    database.total_duration_sec row = total_seconds (res_end - req_start) /\
    (req_start <= ret_end -> (0 <= database.retrieval_duration_sec row)%Q) /\
    (ret_end <= res_end -> (0 <= database.generation_duration_sec row)%Q) /\
    (req_start <= ret_end -> ret_end <= res_end ->
     let elapsed := (res_end - req_start) # 1000000 in
     (Qabs (database.total_duration_sec row
            - (database.retrieval_duration_sec row
               + database.generation_duration_sec row))
      <= elapsed * (1 # 2 ^ 52))%Q /\
     (Qabs (database.total_duration_sec row
            - float_add (database.retrieval_duration_sec row)
                        (database.generation_duration_sec row))
      <= elapsed * (1 # 2 ^ 51))%Q) /\
    ((forall m n, (m <= n)%nat -> clock m <= clock n) ->
     req_start <= ret_end /\ ret_end <= res_end).
Proof.
  intros Hrun Hrow. apply generate_response_ends in Hrun.
  destruct Hrun as [e0 _ _ Hdb _ | e0 _ _ Hdb _
                   | sent e0 _ _ _ Hdb
                   | sent answer metrics e0 _ _ _ _ Hdb
                   | sent answer metrics _ _ _ Hreq Hret Hres _ Hdb];
    rewrite Hdb in Hrow;
    try (apply app_same_nil in Hrow; discriminate).
  apply app_inv_head in Hrow. injection Hrow as <-.
  exists (m_retrieval_end_time metrics), (m_response_end_time metrics).
  simpl. rewrite Hreq, Hret, Hres.
  repeat (split; [first [reflexivity | apply total_seconds_nonneg
                        | apply total_seconds_sum]|]).
  intros Hclock. split; apply Hclock; lia.
Qed.

(** C5. The [is_synthetic] argument of [generate_response] is written by no
    stage with another value, and every row the call adds to [chat_history]
    carries it: when the call returns a message identifier, the row stored
    under that identifier has the flag of the call. *)
Theorem is_synthetic_reaches_storage_unchanged question is_synthetic w r w' :
  generate_response settings AsyncSessionFactory clock strftime_dmY self
    question is_synthetic w = (r, w') ->
  rag_chain.is_synthetic (initial_state_at clock (ticks w) question is_synthetic)
  = is_synthetic /\
  (forall state v u v',
      load_history AsyncSessionFactory self state v = (Ok u, v') \/
      retrieve settings clock self state v = (Ok u, v') \/
      generate AsyncSessionFactory clock strftime_dmY self state v = (Ok u, v') ->
      rag_chain.is_synthetic (merge state u) = rag_chain.is_synthetic state) /\
  (forall row, In row (chat_history w') -> ~ In row (chat_history w) ->
               database.is_synthetic row = is_synthetic) /\
  (forall response id,
      r = Ok response -> r_message_id response = Some id ->
      exists row,
        chat_history w' = (chat_history w ++ [row])%list /\
        database.id row = Some id /\
        database.is_synthetic row = is_synthetic).
Proof.
  intros Hrun. split; [reflexivity|]. split.
  { intros state v u v' [Hstage|[Hstage|Hstage]].
    - rewrite load_history_run in Hstage.
      destruct (database.execute_fault _ _); [discriminate|].
      now injection Hstage as <- _.
    - rewrite retrieve_run in Hstage.
      destruct (vector_retriever.retrieve_context_with_scores _ _ _ _)
        as [[results|e] v1]; [|discriminate].
      now injection Hstage as <- _.
    - rewrite generate_run in Hstage. cbv zeta in Hstage.
      destruct (ainvoke _ _); [destruct (database.commit_fault _ _ _)|];
        try discriminate; now injection Hstage as <- _. }
  apply generate_response_ends in Hrun.
  destruct Hrun as [e0 _ Hr Hdb _ | e0 _ Hr Hdb _
                   | sent e0 _ _ Hr Hdb
                   | sent answer metrics e0 _ _ _ Hr Hdb
                   | sent answer metrics _ _ _ _ _ _ Hr Hdb];
    rewrite Hdb; (split; [intros row Hin Hnew|intros response id Hresp Hid]);
    try contradiction; subst r; try discriminate.
  - injection Hresp as <-. discriminate.
  - apply in_app_or in Hin. destruct Hin as [Hin|[<-|[]]]; [contradiction|].
    reflexivity.
  - injection Hresp as <-. injection Hid as <-.
    eexists. split; [reflexivity|]. split; reflexivity.
Qed.

(** C7. When the store answers the recall with no chunk, Recall+Rerank
    returns the empty list after that one call, the cross-encoder is not
    called, and the [retrieve] stage writes an empty context. *)
Theorem empty_recall_is_empty_context_without_scoring state w :
  let query := rag_chain.question state in
  let w1 := logged (SimilaritySearch query K_raw) w in
  vector_retriever.similarity_search_with_score
    (vector_retriever.vectordb (retriever self)) query K_raw = Ok [] ->
  vector_retriever.retrieve_context_with_scores settings (retriever self) query w
  = (Ok [], w1) /\
  calls_since w w1 = [SimilaritySearch query K_raw] /\
  (forall pairs, ~ In (Predict pairs) (calls_since w w1)) /\
  vector_retriever.retrieve_context settings (retriever self) query w
  = (Ok [], w1) /\
  exists u,
    retrieve settings clock self state w = (Ok u, ticked w1) /\
    u_context u = Some [].
Proof.
  intros query w1 Hrecall.
  assert (Hrun : vector_retriever.retrieve_context_with_scores
                   settings (retriever self) query w = (Ok [], w1)).
  { rewrite retrieve_context_with_scores_run. cbv zeta.
    fold K_raw. now rewrite Hrecall. }
  split; [exact Hrun|]. split; [apply calls_since_logged|]. split; [|split].
  - intros pairs. unfold w1. rewrite calls_since_logged.
    intros [Hin|[]]. discriminate.
  - rewrite retrieve_context_run. fold query. now rewrite Hrun.
  - rewrite retrieve_run. fold query. rewrite Hrun.
    eexists. split; reflexivity.
Qed.


End RAGChainFacts.

(** ** The scenario *)

Section ScenarioFacts.
Import Scenario.

Lemma milli_scores_order : @ScoreOrder milli_scores.
Proof.
  split; simpl.
  - intros a b Hlt. apply Z.ltb_lt in Hlt. apply Z.ltb_ge. lia.
  - intros a b c Hab Hbc. apply Z.ltb_ge in Hab, Hbc. apply Z.ltb_ge. lia.
Qed.

Lemma store_answers_nearest : vector_retriever.answers_nearest store 5.
Proof. intros query k found [= <-]. apply length_firstn. Qed.

(** Recall+Rerank on the five chunks keeps at most three, best first. *)
Lemma rerank_is_stable_descending_top_k_witness :
  0 <= settings.SEARCH_K_FINAL settings.defaults /\
  forall result w',
    vector_retriever.retrieve_context_with_scores
      settings.defaults (retriever store scorer) "Qual o prazo?" fresh
    = (Ok result, w') ->
    StronglySorted vector_retriever.relevance_order result /\
    Z.of_nat (List.length result) <= settings.SEARCH_K_FINAL settings.defaults /\
    (forall top, hd_error result = Some top ->
                 Forall (vector_retriever.relevance_order top) result).
Proof.
  split; [simpl; lia|].
  apply (rerank_is_stable_descending_top_k settings.defaults
           (retriever store scorer) (order := milli_scores_order)
           "Qual o prazo?" fresh).
  simpl. lia.
Defined.

(** The scorer is down: Recall+Rerank answers with no chunk. *)
Lemma scorer_failure_degrades_to_empty_witness :
  let run := vector_retriever.retrieve_context_with_scores
               settings.defaults (retriever store broken_scorer) "Qual o prazo?" fresh in
  let pairs := vector_retriever.pairs_of "Qual o prazo?" stored_chunks in
  In (Predict pairs) (calls_since fresh (snd run)) /\
  vector_retriever.predict broken_scorer pairs = Raised out_of_memory /\
  fst run = Ok [].
Proof.
  intros run pairs.
  assert (Hcall : In (Predict pairs) (calls_since fresh (snd run)))
    by (vm_compute; right; left; reflexivity).
  split; [exact Hcall|]. split; [reflexivity|].
  apply (scorer_failure_degrades_to_empty settings.defaults
           (retriever store broken_scorer) "Qual o prazo?" fresh (fst run) (snd run)
           pairs out_of_memory);
    [apply surjective_pairing | exact Hcall | reflexivity].
Defined.

(** Recall-only on the five chunks: one search for three, sorted by distance. *)
Lemma recall_only_is_ascending_k_final_witness :
  @ScoreOrder milli_scores /\
  let run := vector_retriever.retrieve_context_vector_search_only
               settings.defaults (retriever store scorer) "Qual o prazo?" fresh in
  calls_since fresh (snd run) = [SimilaritySearch "Qual o prazo?" 3] /\
  (exists result,
      fst run = Ok result /\ StronglySorted vector_retriever.distance_order result) /\
  (forall result, fst run = Ok result -> result <> [] -> List.length result = 3%nat).
Proof.
  split; [exact milli_scores_order|].
  pose proof (recall_only_is_ascending_k_final settings.defaults
                (retriever store scorer) (order := milli_scores_order)
                "Qual o prazo?" fresh) as [Hcalls [Hsorted [_ Hlength]]].
  repeat split; try assumption.
  intros result. exact (Hlength 5%nat result store_answers_nearest).
Defined.

(** The store is down: Recall-only answers with no chunk. *)
Lemma recall_only_failure_degrades_to_empty_witness :
  vector_retriever.similarity_search_with_score broken_store "Qual o prazo?"
    (settings.SEARCH_K_FINAL settings.defaults) = Raised index_unavailable /\
  vector_retriever.retrieve_context_vector_search_only
    settings.defaults (retriever broken_store scorer) "Qual o prazo?" fresh
  = (Ok [], logged (SimilaritySearch "Qual o prazo?" 3) fresh).
Proof.
  split; [reflexivity|].
  apply (recall_only_failure_degrades_to_empty settings.defaults
           (retriever broken_store scorer) "Qual o prazo?" fresh index_unavailable).
  reflexivity.
Defined.

(** The model is down: the answer is the error text and nothing is stored. *)
Lemma llm_failure_answers_error_and_saves_nothing_witness :
  let self := chain gemini_down (retriever store scorer) in
  let run := ask sqlite self "Qual o prazo?" true fresh in
  exists messages,
    In (AInvoke messages) (calls_since fresh (snd run)) /\
    rag_chain.ainvoke gemini_down messages = Raised quota_exceeded /\
    fst run = Ok {| rag_chain.r_answer := "Erro técnico: 429 quota exceeded";
                    rag_chain.r_message_id := None |} /\
    chat_history (snd run) = [].
Proof.
  intros self run.
  assert (Hcall : exists messages,
             In (AInvoke messages) (calls_since fresh (snd run)))
    by (vm_compute; eexists; right; right; left; reflexivity).
  destruct Hcall as [messages Hcall]. exists messages.
  split; [exact Hcall|]. split; [reflexivity|].
  apply (llm_failure_answers_error_and_saves_nothing settings.defaults sqlite
           clock strftime_dmY self "Qual o prazo?" true fresh (fst run) (snd run)
           messages quota_exceeded);
    [apply surjective_pairing | exact Hcall | reflexivity].
Defined.

(** A turn of 0.1 s and 0.2 s, 0.3 s in all: the three doubles stored. *)
Lemma uneven_durations_are_rounded :
  let self := chain gemini (retriever store scorer) in
  let run := rag_chain.generate_response settings.defaults sqlite
               ScenarioMore.uneven_clock strftime_dmY self "Qual o prazo?" true fresh in
  exists row,
    chat_history (snd run) = [row] /\
    (database.retrieval_duration_sec row
     == 3602879701896397 # 36028797018963968)%Q /\
    (database.generation_duration_sec row
     == 3602879701896397 # 18014398509481984)%Q /\
    (database.total_duration_sec row
     == 5404319552844595 # 18014398509481984)%Q /\
    ~ (database.total_duration_sec row
       == database.retrieval_duration_sec row
          + database.generation_duration_sec row)%Q.
Proof.
  intros self run. eexists. split; [vm_compute; reflexivity|].
  split; [vm_compute; reflexivity|]. split; [vm_compute; reflexivity|].
  split; [vm_compute; reflexivity|]. vm_compute. discriminate.
Qed.

(** The row of that turn: its total is within rounding of the sum. *)
Lemma persisted_durations_are_timestamp_differences_witness :
  let self := chain gemini (retriever store scorer) in
  let run := rag_chain.generate_response settings.defaults sqlite
               ScenarioMore.uneven_clock strftime_dmY self "Qual o prazo?" true fresh in
  exists row,
    chat_history (snd run) = (chat_history fresh ++ [row])%list /\
    exists ret_end res_end,
      let req_start := database.request_start_time row in
      database.retrieval_end_time row = Some ret_end /\
      database.response_end_time row = Some res_end /\
      database.retrieval_duration_sec row = total_seconds (ret_end - req_start) /\
      database.generation_duration_sec row = total_seconds (res_end - ret_end) /\
      database.total_duration_sec row = total_seconds (res_end - req_start) /\
      (req_start <= ret_end -> (0 <= database.retrieval_duration_sec row)%Q) /\
      (ret_end <= res_end -> (0 <= database.generation_duration_sec row)%Q) /\
      (req_start <= ret_end -> ret_end <= res_end ->
       let elapsed := (res_end - req_start) # 1000000 in
       (Qabs (database.total_duration_sec row
              - (database.retrieval_duration_sec row
                 + database.generation_duration_sec row))
        <= elapsed * (1 # 2 ^ 52))%Q /\
       (Qabs (database.total_duration_sec row
              - float_add (database.retrieval_duration_sec row)
                          (database.generation_duration_sec row))
        <= elapsed * (1 # 2 ^ 51))%Q) /\
      ((forall m n, (m <= n)%nat ->
                    ScenarioMore.uneven_clock m <= ScenarioMore.uneven_clock n) ->
       req_start <= ret_end /\ ret_end <= res_end).
Proof.
  intros self run.
  assert (Hrow : exists row,
             chat_history (snd run) = (chat_history fresh ++ [row])%list)
    by (vm_compute; eexists; reflexivity).
  destruct Hrow as [row Hrow]. exists row. split; [exact Hrow|].
  apply (persisted_durations_are_timestamp_differences settings.defaults sqlite
           ScenarioMore.uneven_clock strftime_dmY self "Qual o prazo?" true fresh
           (fst run) (snd run) row);
    [apply surjective_pairing | exact Hrow].
Defined.

(** A synthetic turn is stored as synthetic. *)
Lemma is_synthetic_reaches_storage_unchanged_witness :
  let self := chain gemini (retriever store scorer) in
  let run := ask sqlite self "Qual o prazo?" true fresh in
  fst run = Ok {| rag_chain.r_answer := "O prazo e de 30 dias.";
                  rag_chain.r_message_id := Some 1 |} /\
  (forall row, In row (chat_history (snd run)) -> ~ In row (chat_history fresh) ->
               database.is_synthetic row = true) /\
  exists row,
    chat_history (snd run) = (chat_history fresh ++ [row])%list /\
    database.id row = Some 1 /\ database.is_synthetic row = true.
Proof.
  intros self run.
  pose proof (is_synthetic_reaches_storage_unchanged settings.defaults sqlite
                clock strftime_dmY self "Qual o prazo?" true fresh (fst run) (snd run)
                (surjective_pairing run)) as [_ [_ [Hrows Hrow]]].
  split; [reflexivity|]. split; [exact Hrows|].
  exact (Hrow _ 1 eq_refl eq_refl).
Defined.

(** An empty store: no chunk, no scoring, an empty context. *)
Lemma empty_recall_is_empty_context_without_scoring_witness :
  let self := chain gemini (retriever empty_store broken_scorer) in
  let state := rag_chain.initial_state_at clock 0 "Qual o prazo?" false in
  let w1 := logged (SimilaritySearch "Qual o prazo?" 20) fresh in
  vector_retriever.similarity_search_with_score empty_store "Qual o prazo?" 20
  = Ok [] /\
  vector_retriever.retrieve_context_with_scores
    settings.defaults (retriever empty_store broken_scorer) "Qual o prazo?" fresh
  = (Ok [], w1) /\
  (forall pairs, ~ In (Predict pairs) (calls_since fresh w1)) /\
  exists u,
    rag_chain.retrieve settings.defaults clock self state fresh = (Ok u, ticked w1) /\
    rag_chain.u_context u = Some [].
Proof.
  intros self state w1.
  pose proof (empty_recall_is_empty_context_without_scoring settings.defaults
                clock self state fresh eq_refl) as [Hrun [_ [Hnone [_ Hstage]]]].
  split; [reflexivity|]. split; [exact Hrun|]. split; [exact Hnone|exact Hstage].
Defined.


End ScenarioFacts.


(** * More of the code *)

(** ** More on the sort *)

Lemma sort_forward_sorted_id {A K} (key : A -> K) (lt : K -> K -> bool) l :
  StronglySorted (fun a b => lt (key b) (key a) = false) l ->
  Py.sort_forward key lt l = l.
Proof.
  induction 1 as [|x l Hs IH Hall]; [reflexivity|].
  simpl. rewrite IH. destruct Hall as [|y l' Hy _]; [reflexivity|].
  simpl. now rewrite Hy.
Qed.

Lemma list_sort_reverse_sorted_id {A K} (key : A -> K) (lt : K -> K -> bool) l :
  StronglySorted (fun a b => lt (key a) (key b) = false) l ->
  Py.list_sort key lt true l = l.
Proof.
  intros Hs. simpl. rewrite sort_forward_sorted_id; [apply rev_involutive|].
  apply (StronglySorted_rev (fun a b => lt (key a) (key b) = false)), Hs.
Qed.

Lemma insert_snoc {A K} (key : A -> K) (lt : K -> K -> bool) y l x :
  lt (key x) (key y) = false ->
  Py.insert key lt y (l ++ [x]) = (Py.insert key lt y l ++ [x])%list.
Proof.
  intros Hle. induction l as [|z l IH]; simpl.
  - now rewrite Hle.
  - destruct (lt (key z) (key y)); [now rewrite IH|reflexivity].
Qed.

Lemma sort_forward_snoc {A K} (key : A -> K) (lt : K -> K -> bool) l x :
  Forall (fun y => lt (key x) (key y) = false) l ->
  Py.sort_forward key lt (l ++ [x]) = (Py.sort_forward key lt l ++ [x])%list.
Proof.
  induction 1 as [|y l Hy Hall IH]; [reflexivity|].
  simpl. rewrite IH. now apply insert_snoc.
Qed.


Lemma slice_to_length_exact {A} (l : list A) k :
  List.length (Py.slice_to l k)
  = if 0 <=? k then Nat.min (Z.to_nat k) (List.length l)
    else Z.to_nat (Z.of_nat (List.length l) + k).
Proof.
  unfold Py.slice_to. destruct (Z.leb_spec 0 k); rewrite length_firstn; lia.
Qed.

(** ** More on the retrieval engine *)

Section RetrieverMore.
Import vector_retriever.
Context {score_type : ScoreType}.
Variable settings : settings.Settings.
Variable self : VectorRetriever.

Let K_raw := settings.SEARCH_K_RAW settings.
Let K_final := settings.SEARCH_K_FINAL settings.



(** X2. When the cross-encoder gives one score per recalled chunk,
    Recall+Rerank returns [K_final] entries, or all the recalled chunks when
    they are fewer; a negative [K_final] drops that many entries from the
    end instead. *)
Theorem rerank_length_is_clamped query w recalled scores :
  similarity_search_with_score (vectordb self) query K_raw = Ok recalled ->
  predict (cross_encoder self) (pairs_of query recalled) = Ok scores ->
  List.length scores = List.length recalled ->
  exists result,
    fst (retrieve_context_with_scores settings self query w) = Ok result /\
    List.length result
    = if 0 <=? K_final then Nat.min (Z.to_nat K_final) (List.length recalled)
      else Z.to_nat (Z.of_nat (List.length recalled) + K_final).
Proof.
  intros Hrecall Hpredict Hlen.
  rewrite retrieve_context_with_scores_run. cbv zeta. fold K_raw K_final.
  rewrite Hrecall. destruct recalled as [|c cs].
  - eexists. split; [reflexivity|]. simpl. destruct (Z.leb_spec 0 K_final); lia.
  - rewrite Hpredict. eexists. split; [reflexivity|].
    rewrite length_map, slice_to_length_exact.
    rewrite (Permutation_length (list_sort_perm snd score_lt true _)).
    unfold Py.zip. rewrite length_combine, Hlen, Nat.min_id. reflexivity.
Qed.

(** X3. When the store answers in non-decreasing distance order, Recall-only
    returns the answer as it is. *)
Theorem recall_only_keeps_an_ascending_answer query w found :
  similarity_search_with_score (vectordb self) query K_final = Ok found ->
  StronglySorted distance_order found ->
  fst (retrieve_context_vector_search_only settings self query w) = Ok found.
Proof.
  intros Hfound Hsorted. rewrite retrieve_context_vector_search_only_run.
  fold K_final. rewrite Hfound. simpl.
  now rewrite (sort_forward_sorted_id snd score_lt found Hsorted).
Qed.

(** X4. When the relevance scores do not increase along the recall order,
    Recall+Rerank returns the first recalled chunks in recall order, each
    with its relevance score. *)
Theorem rerank_keeps_a_descending_scoring query w recalled scores :
  similarity_search_with_score (vectordb self) query K_raw = Ok recalled ->
  predict (cross_encoder self) (pairs_of query recalled) = Ok scores ->
  StronglySorted relevance_order (Py.zip recalled scores) ->
  fst (retrieve_context_with_scores settings self query w)
  = Ok (map rescored (Py.slice_to (Py.zip recalled scores) K_final)).
Proof.
  intros Hrecall Hpredict Hsorted.
  rewrite retrieve_context_with_scores_run. cbv zeta. fold K_raw K_final.
  rewrite Hrecall. destruct recalled as [|c cs].
  - simpl. unfold Py.slice_to. now destruct (0 <=? K_final); rewrite firstn_nil.
  - rewrite Hpredict. cbv [fst].
    now rewrite (list_sort_reverse_sorted_id snd score_lt _ Hsorted).
Qed.

(** X5. No retrieval operation changes the [chat_history] table or reads the
    clock. *)
Theorem retrieval_touches_neither_turns_nor_clock query w :
  (forall r w', retrieve_context_with_scores settings self query w = (r, w') ->
                chat_history w' = chat_history w /\ ticks w' = ticks w) /\
  (forall r w', retrieve_context settings self query w = (r, w') ->
                chat_history w' = chat_history w /\ ticks w' = ticks w) /\
  (forall r w', retrieve_context_vector_search_only settings self query w = (r, w') ->
                chat_history w' = chat_history w /\ ticks w' = ticks w).
Proof.
  assert (Hscored : forall r w',
             retrieve_context_with_scores settings self query w = (r, w') ->
             chat_history w' = chat_history w /\ ticks w' = ticks w).
  { intros r w'. rewrite retrieve_context_with_scores_run. cbv zeta.
    destruct (similarity_search_with_score _ _ _) as [[|c cs]|e];
      [| destruct (predict _ _) |]; intros [= _ <-]; split; reflexivity. }
  split; [exact Hscored|]. split.
  - intros r w'. rewrite retrieve_context_run.
    destruct (retrieve_context_with_scores _ _ _ _) as [[results|e] w1] eqn:Hrun;
      intros [= _ <-]; exact (Hscored _ _ eq_refl).
  - intros r w'. rewrite retrieve_context_vector_search_only_run.
    intros [= _ <-]. split; reflexivity.
Qed.
End RetrieverMore.

(** ** More on the conversation orchestrator *)

Lemma NoDup_snoc {A} (l : list A) x : NoDup l -> ~ In x l -> NoDup (l ++ [x]).
Proof.
  intros Hl Hx. eapply Permutation_NoDup; [apply Permutation_cons_append|].
  now constructor.
Qed.

Lemma next_rowid_above table i :
  In (Some i) (map database.id table) -> i < database.next_rowid table.
Proof.
  unfold database.next_rowid.
  induction table as [|row table IH]; cbn [fold_right map In]; [tauto|].
  intros [Hrow|Hin].
  - rewrite Hrow. lia.
  - specialize (IH Hin). destruct (database.id row); lia.
Qed.

Section RAGChainMore.
Import rag_chain.
Context {score_type : ScoreType}.
Variable settings : settings.Settings.
Variable AsyncSessionFactory : database.AsyncSessionFactory.
Variable clock : nat -> datetime.
Variable strftime_dmY : datetime -> string.
Variable self : RAGChain.

Let K_raw := settings.SEARCH_K_RAW settings.
Let of_session (row : database.ChatHistory) : bool :=
  String.eqb (database.session_id row) (session_id self).

Lemma session_history_length table :
  List.length (session_history self table)
  = (2 * List.length (filter of_session table))%nat.
Proof.
  clear K_raw. unfold session_history. fold of_session.
  rewrite <- (Permutation_length
                (sort_forward_perm database.request_start_time Z.ltb
                   (filter of_session table))).
  induction (Py.sort_forward _ _ _) as [|row rows IH]; simpl; [reflexivity|].
  rewrite IH. lia.
Qed.

Lemma session_history_alternating table :
  alternating (session_history self table) = true.
Proof.
  clear K_raw. unfold session_history.
  induction (Py.sort_forward _ _ _) as [|row rows IH]; [reflexivity|exact IH].
Qed.

Lemma session_history_snoc table row :
  database.session_id row = session_id self ->
  Forall (fun earlier => database.session_id earlier = session_id self ->
                         database.request_start_time earlier
                         <= database.request_start_time row) table ->
  session_history self (table ++ [row])
  = (session_history self table
       ++ [HumanMessage (database.user_message row);
           AIMessage (database.bot_response row)])%list.
Proof.
  intros Hsession Hearlier. unfold session_history. fold of_session.
  rewrite filter_app. simpl. unfold of_session at 2.
  rewrite Hsession, String.eqb_refl.
  rewrite sort_forward_snoc.
  - rewrite flat_map_app. simpl. reflexivity.
  - apply Forall_forall. intros earlier Hin. apply filter_In in Hin.
    destruct Hin as [Hin Hof]. apply Z.ltb_ge.
    rewrite Forall_forall in Hearlier. apply (Hearlier earlier Hin).
    now apply String.eqb_eq.
Qed.

(** X6. [load_history] changes nothing in the world; the history it returns
    holds two messages for each stored turn of the session, a user's message
    and then the assistant's. *)
Theorem load_history_reads_two_messages_per_turn state w r w' :
  load_history AsyncSessionFactory self state w = (r, w') ->
  w' = w /\
  (forall u, r = Ok u ->
     u_history u = Some (session_history self (chat_history w)) /\
     List.length (session_history self (chat_history w))
     = (2 * List.length (filter of_session (chat_history w)))%nat /\
     alternating (session_history self (chat_history w)) = true).
Proof.
  clear K_raw. rewrite load_history_run.
  destruct (database.execute_fault _ _); intros [= <- <-];
    (split; [reflexivity|]); intros u [= <-].
  split; [reflexivity|].
  split; [apply session_history_length|apply session_history_alternating].
Qed.

(** X7. A turn stored under another session does not change the history
    [load_history] returns. *)
Theorem load_history_ignores_other_sessions state w row u u' :
  database.session_id row <> session_id self ->
  fst (load_history AsyncSessionFactory self state w) = Ok u ->
  fst (load_history AsyncSessionFactory self state (stored row w)) = Ok u' ->
  u' = u.
Proof.
  intros Hother. rewrite !load_history_run. simpl chat_history.
  destruct (database.execute_fault _ (chat_history w)); [discriminate|].
  destruct (database.execute_fault _ _); [discriminate|].
  simpl. intros [= <-] [= <-]. rewrite filter_app. simpl.
  apply String.eqb_neq in Hother. rewrite Hother, app_nil_r. reflexivity.
Qed.


(** X9. The calls of one [generate_response], in order: one search of the
    store for the question and [K_raw] chunks; the cross-encoder on the pairs
    of the recalled chunks, unless none was recalled; the model, once, on a
    system message, the stored history of the session and the question.  When
    the read of the history raises nothing is called, and when the search
    raises nothing is called after it. *)
Theorem generate_response_calls_in_order question is_synthetic w r w' :
  generate_response settings AsyncSessionFactory clock strftime_dmY self
    question is_synthetic w = (r, w') ->
  match database.execute_fault AsyncSessionFactory (chat_history w) with
  | Some _ => calls_since w w' = []
  | None =>
      match vector_retriever.similarity_search_with_score
              (vector_retriever.vectordb (retriever self)) question K_raw with
      | Raised _ => calls_since w w' = [SimilaritySearch question K_raw]
      | Ok recalled =>
          exists prompt,
            calls_since w w'
            = (SimilaritySearch question K_raw
                 :: match recalled with
                    | [] => []
                    | _ :: _ =>
                        [Predict (vector_retriever.pairs_of question recalled)]
                    end
                 ++ [AInvoke (SystemMessage prompt
                                :: session_history self (chat_history w)
                                ++ [HumanMessage question])])%list
      end
  end.
Proof.
  unfold generate_response, graph_ainvoke, bind, datetime_now, ret.
  rewrite load_history_run. simpl chat_history.
  destruct (database.execute_fault _ _) as [e|].
  { intros [= _ <-]. erewrite extends_calls_since by eauto with world.
    reflexivity. }
  rewrite retrieve_run, retrieve_context_with_scores_run. cbv zeta.
  simpl rag_chain.question. fold K_raw.
  destruct (vector_retriever.similarity_search_with_score _ _ _)
    as [recalled|e].
  2:{ intros [= _ <-]. erewrite extends_calls_since by eauto with world.
      reflexivity. }
  destruct recalled as [|c cs];
    [|destruct (vector_retriever.predict _ _) as [scores|e]];
    rewrite generate_run; cbv zeta;
    (destruct (ainvoke _ _) as [answer|e'];
     [destruct (database.commit_fault _ _ _) as [e'|]|]);
    intros [= _ <-]; eexists;
    erewrite extends_calls_since by eauto 10 with world; reflexivity.
Qed.

(** X10. After a call of [generate_response] that returned a message
    identifier, the stored history of the session is the history before the
    call followed by the question and the answer returned, when no earlier
    turn of the session started after the call did. *)
Theorem next_turn_sees_the_saved_turn question is_synthetic w response id w' :
  generate_response settings AsyncSessionFactory clock strftime_dmY self
    question is_synthetic w = (Ok response, w') ->
  r_message_id response = Some id ->
  Forall (fun earlier => database.session_id earlier = session_id self ->
                         database.request_start_time earlier <= clock (ticks w))
         (chat_history w) ->
  session_history self (chat_history w')
  = (session_history self (chat_history w)
       ++ [HumanMessage question; AIMessage (r_answer response)])%list.
Proof.
  intros Hrun Hid Hearlier. apply generate_response_ends in Hrun.
  destruct Hrun as [e0 _ Hr _ _ | e0 _ Hr _ _
                   | sent e0 _ _ Hr _
                   | sent answer metrics e0 _ _ _ Hr _
                   | sent answer metrics _ _ _ Hreq _ _ Hr Hdb];
    try discriminate; injection Hr as Hr; subst response; try discriminate.
  rewrite Hdb. rewrite session_history_snoc; [reflexivity|reflexivity|].
  simpl. now rewrite Hreq.
Qed.

(** X11. The message identifier [generate_response] returns is the key of no
    row stored before the call, and a table whose keys are distinct keeps
    distinct keys. *)
Theorem message_ids_stay_distinct question is_synthetic w r w' :
  generate_response settings AsyncSessionFactory clock strftime_dmY self
    question is_synthetic w = (r, w') ->
  (forall response id,
      r = Ok response -> r_message_id response = Some id ->
      ~ In (Some id) (map database.id (chat_history w))) /\
  (NoDup (map database.id (chat_history w)) ->
   NoDup (map database.id (chat_history w'))).
Proof.
  intros Hrun. apply generate_response_ends in Hrun.
  assert (Hfresh : ~ In (Some (database.next_rowid (chat_history w)))
                     (map database.id (chat_history w))).
  { intros Hin. apply next_rowid_above in Hin. lia. }
  destruct Hrun as [e0 _ Hr Hdb _ | e0 _ Hr Hdb _
                   | sent e0 _ _ Hr Hdb
                   | sent answer metrics e0 _ _ _ Hr Hdb
                   | sent answer metrics _ _ _ _ _ _ Hr Hdb];
    rewrite Hdb; subst r;
    (split; [intros response id Hresp Hid|intros Hdistinct; try assumption]);
    try discriminate;
    try (injection Hresp as Hresp; subst response; discriminate).
  - injection Hresp as Hresp. subst response. injection Hid as <-. exact Hfresh.
  - rewrite map_app. simpl. now apply NoDup_snoc.
Qed.
End RAGChainMore.

(** ** The feedback on a turn *)

Lemma insert_map {A B K} (g : A -> B) (key : B -> K) (lt : K -> K -> bool) x l :
  Py.insert key lt (g x) (map g l) = map g (Py.insert (fun a => key (g a)) lt x l).
Proof.
  induction l as [|y l IH]; [reflexivity|].
  simpl. destruct (lt (key (g y)) (key (g x))); [now rewrite IH|reflexivity].
Qed.

Lemma sort_forward_map {A B K} (g : A -> B) (key : B -> K) (lt : K -> K -> bool) l :
  Py.sort_forward key lt (map g l)
  = map g (Py.sort_forward (fun a => key (g a)) lt l).
Proof.
  induction l as [|x l IH]; [reflexivity|].
  simpl. rewrite IH. apply insert_map.
Qed.

Lemma filter_map {A B} (g : A -> B) (p : B -> bool) l :
  filter p (map g l) = map g (filter (fun a => p (g a)) l).
Proof.
  induction l as [|x l IH]; [reflexivity|].
  simpl. rewrite IH. now destruct (p (g x)).
Qed.

Lemma flat_map_head {A B} (f : A -> list B) x l :
  flat_map f (x :: l) = (f x ++ flat_map f l)%list.
Proof. reflexivity. Qed.

Lemma find_snoc {A} (p : A -> bool) l y :
  find p l = None -> p y = true -> find p (l ++ [y]) = Some y.
Proof.
  intros Hnone Hy. induction l as [|x l IH]; simpl in *; [now rewrite Hy|].
  destruct (p x); [discriminate|now apply IH].
Qed.

Lemma NoDup_map_same {A B} (k : A -> B) l a b :
  NoDup (map k l) -> In a l -> In b l -> k a = k b -> a = b.
Proof.
  induction l as [|x l IH]; simpl; [tauto|].
  intros Hnd [<-|Ha] [<-|Hb] Hk; inversion_clear Hnd as [|? ? Hx Hl];
    try reflexivity.
  - exfalso. apply Hx. rewrite Hk. now apply in_map.
  - exfalso. apply Hx. rewrite <- Hk. now apply in_map.
  - now apply IH.
Qed.

Section FeedbackFacts.
Import rag_chain_feedback.
Context {score_type : ScoreType}.
Variable session : database_feedback.Session.
Variable clock : nat -> datetime.
Variable self : rag_chain.RAGChain.

Lemma map_update_first {A B} (k : A -> B) p f l :
  (forall x, k (f x) = k x) -> map k (update_first p f l) = map k l.
Proof.
  intros Hk. induction l as [|x l IH]; [reflexivity|].
  simpl. destruct (p x); simpl; [now rewrite Hk|now rewrite IH].
Qed.

Lemma find_update_first {A} (p : A -> bool) f l x :
  find p l = Some x -> p (f x) = true -> find p (update_first p f l) = Some (f x).
Proof.
  intros Hfind Hp. induction l as [|y l IH]; [discriminate|].
  simpl in *. destruct (p y) eqn:Hy.
  - injection Hfind as ->. simpl. now rewrite Hp.
  - simpl. rewrite Hy. now apply IH.
Qed.

Lemma filter_update_first {A} (p q : A -> bool) f l :
  (forall x, p x = true -> q x = false) -> (forall x, q (f x) = q x) ->
  filter q (update_first p f l) = filter q l.
Proof.
  intros Hpq Hq. induction l as [|y l IH]; [reflexivity|].
  simpl. destruct (p y) eqn:Hy; simpl.
  - now rewrite Hq, (Hpq y Hy).
  - now rewrite IH.
Qed.

Lemma In_update_first {A} (p : A -> bool) f l y :
  In y (update_first p f l) ->
  In y l \/ exists x, In x l /\ p x = true /\ y = f x.
Proof.
  induction l as [|x l IH]; [intros []|].
  simpl. destruct (p x) eqn:Hx; simpl.
  - intros [<-|Hin]; [right; exists x; auto|left; now right].
  - intros [<-|Hin]; [left; now left|].
    destruct (IH Hin) as [Hl|[x' [Hl [Hp Hy]]]]; [left; now right|].
    right. exists x'. auto.
Qed.

(** The run of [save_feedback], case by case. *)
Lemma save_feedback_run message_id rating comment s :
  save_feedback session clock message_id rating comment s =
  let table := feedback_table s in
  let s1 := {| world := ticked (world s); feedback_table := table |} in
  let saved :=
    {| database_feedback.id := None; database_feedback.message_id := message_id;
       database_feedback.rating := rating; database_feedback.comment := comment;
       database_feedback.timestamp := clock (ticks (world s)) |} in
  let table' :=
    match find (of_message message_id) table with
    | Some _ =>
        update_first (of_message message_id)
          (fun existing =>
             {| database_feedback.id := database_feedback.id existing;
                database_feedback.message_id := database_feedback.message_id existing;
                database_feedback.rating := rating;
                database_feedback.comment := comment;
                database_feedback.timestamp := clock (ticks (world s)) |})
          table
    | None =>
        (table ++ [{| database_feedback.id := Some (database_feedback.next_rowid table);
                      database_feedback.message_id := message_id;
                      database_feedback.rating := rating;
                      database_feedback.comment := comment;
                      database_feedback.timestamp := clock (ticks (world s)) |}])%list
    end in
  match database_feedback.select_fault session table with
  | Some e => (Raised e, s)
  | None =>
      match database_feedback.commit_fault session table table' with
      | Some e => (Raised e, s1)
      | None => (Ok tt, {| world := ticked (world s); feedback_table := table' |})
      end
  end.
Proof. reflexivity. Qed.

Lemma save_feedback_first message_id rating comment s s' :
  save_feedback session clock message_id rating comment s = (Ok tt, s') ->
  exists saved,
    find (of_message message_id) (feedback_table s') = Some saved /\
    database_feedback.rating saved = rating /\
    database_feedback.comment saved = comment /\
    database_feedback.timestamp saved = clock (ticks (world s)).
Proof.
  rewrite save_feedback_run. cbv zeta.
  destruct (database_feedback.select_fault _ _); [discriminate|].
  destruct (database_feedback.commit_fault _ _ _); [discriminate|].
  intros [= <-]. simpl feedback_table.
  destruct (find _ (feedback_table s)) as [existing|] eqn:Hfind.
  - eexists. split; [apply (find_update_first _ _ _ _ Hfind)|simpl; auto].
    apply find_some in Hfind. exact (proj2 Hfind).
  - eexists. split; [apply (find_snoc _ _ _ Hfind)|simpl; auto].
    unfold of_message. simpl. apply Z.eqb_refl.
Qed.

Lemma save_feedback_distinct message_id rating comment s r s' :
  save_feedback session clock message_id rating comment s = (r, s') ->
  NoDup (map database_feedback.message_id (feedback_table s)) ->
  NoDup (map database_feedback.message_id (feedback_table s')).
Proof.
  rewrite save_feedback_run. cbv zeta.
  destruct (database_feedback.select_fault _ _); [now intros [= <- <-]|].
  destruct (database_feedback.commit_fault _ _ _); intros [= <- <-]; [trivial|].
  simpl feedback_table. intros Hdistinct.
  destruct (find _ (feedback_table s)) as [existing|] eqn:Hfind.
  - now rewrite map_update_first by reflexivity.
  - rewrite map_app. simpl. apply NoDup_snoc; [assumption|].
    intros Hin. apply in_map_iff in Hin. destruct Hin as [f [Hf Hin]].
    apply (find_none _ _ Hfind) in Hin. unfold of_message in Hin.
    rewrite Hf, Z.eqb_refl in Hin. discriminate.
Qed.

Lemma save_feedback_turns message_id rating comment s r s' :
  save_feedback session clock message_id rating comment s = (r, s') ->
  chat_history (world s') = chat_history (world s).
Proof.
  rewrite save_feedback_run. cbv zeta.
  destruct (database_feedback.select_fault _ _); [now intros [= <- <-]|].
  destruct (database_feedback.commit_fault _ _ _); now intros [= <- <-].
Qed.

(** X12. After [save_feedback] returns, the first feedback on the message
    holds the rating and the comment given, stamped with the clock's reading;
    the feedback on other messages is as before, the table has one more row
    only when the message had no feedback, and no turn is touched. *)
Theorem save_feedback_then_find message_id rating comment s s' :
  save_feedback session clock message_id rating comment s = (Ok tt, s') ->
  (exists saved,
      find (of_message message_id) (feedback_table s') = Some saved /\
      database_feedback.rating saved = rating /\
      database_feedback.comment saved = comment /\
      database_feedback.timestamp saved = clock (ticks (world s))) /\
  filter (fun f => negb (of_message message_id f)) (feedback_table s')
  = filter (fun f => negb (of_message message_id f)) (feedback_table s) /\
  List.length (feedback_table s')
  = (List.length (feedback_table s)
     + match find (of_message message_id) (feedback_table s) with
       | Some _ => 0
       | None => 1
       end)%nat /\
  chat_history (world s') = chat_history (world s).
Proof.
  intros Hrun. split; [exact (save_feedback_first _ _ _ _ _ Hrun)|].
  split; [|split; [|exact (save_feedback_turns _ _ _ _ _ _ Hrun)]];
    revert Hrun; rewrite save_feedback_run; cbv zeta;
    (destruct (database_feedback.select_fault _ _); [discriminate|]);
    (destruct (database_feedback.commit_fault _ _ _); [discriminate|]);
    intros [= <-]; simpl feedback_table;
    destruct (find _ (feedback_table s)) as [existing|] eqn:Hfind.
  - apply filter_update_first; [|reflexivity].
    intros x Hx. now rewrite Hx.
  - rewrite filter_app. simpl. unfold of_message at 2. simpl.
    rewrite Z.eqb_refl. simpl. apply app_nil_r.
  - rewrite <- (length_map database_feedback.message_id).
    rewrite map_update_first by reflexivity.
    rewrite length_map. lia.
  - rewrite length_app. reflexivity.
Qed.

(** X13. [save_feedback] keeps at most one feedback per message: when no two
    rows of the table are on the same message, none are after the call,
    however it ends; and a call that raises leaves the table as it was. *)
Theorem save_feedback_keeps_one_feedback_per_message
    message_id rating comment s r s' :
  save_feedback session clock message_id rating comment s = (r, s') ->
  (NoDup (map database_feedback.message_id (feedback_table s)) ->
   NoDup (map database_feedback.message_id (feedback_table s'))) /\
  (forall e, r = Raised e -> feedback_table s' = feedback_table s).
Proof.
  intros Hrun. split; [exact (save_feedback_distinct _ _ _ _ _ _ Hrun)|].
  revert Hrun. rewrite save_feedback_run. cbv zeta.
  destruct (database_feedback.select_fault _ _); [now intros [= <- <-]|].
  destruct (database_feedback.commit_fault _ _ _); intros [= <- <-] e' Hr;
    [reflexivity|discriminate].
Qed.

Let rating_for (feedbacks : list database_feedback.Feedback)
    (history : database.ChatHistory) : option string :=
  match filter (joins history) feedbacks with
  | [] => None
  | feedback :: _ => Some (database_feedback.rating feedback)
  end.

Lemma In_outerjoin histories feedbacks history shown :
  In (history, shown) (outerjoin histories feedbacks) <->
  In history histories /\
  ((filter (joins history) feedbacks = [] /\ shown = None) \/
   exists feedback,
     In feedback feedbacks /\ joins history feedback = true /\
     shown = Some (database_feedback.rating feedback)).
Proof.
  unfold outerjoin. rewrite in_flat_map. split.
  - intros [h [Hh Hin]].
    destruct (filter (joins h) feedbacks) as [|f matching] eqn:Hfilter.
    + destruct Hin as [[= <- <-]|[]]. auto.
    + apply in_map_iff in Hin. destruct Hin as [f' [[= <- <-] Hf']].
      rewrite <- Hfilter in Hf'. apply filter_In in Hf'.
      split; [assumption|]. right. exists f'. tauto.
  - intros [Hh Hcases]. exists history. split; [assumption|].
    destruct Hcases as [[-> ->]|[f [Hf [Hjoin ->]]]]; [now left|].
    assert (Hin : In f (filter (joins history) feedbacks))
      by (apply filter_In; auto).
    destruct (filter (joins history) feedbacks) as [|f0 matching];
      [destruct Hin|].
    apply in_map_iff. exists f. auto.
Qed.

Lemma filter_joins_at_most_one feedbacks history :
  NoDup (map database_feedback.message_id feedbacks) ->
  filter (joins history) feedbacks = [] \/
  exists feedback, filter (joins history) feedbacks = [feedback].
Proof.
  induction feedbacks as [|f fs IH]; [now left|].
  simpl. intros Hdistinct. inversion_clear Hdistinct as [|? ? Hf Hfs].
  destruct (joins history f) eqn:Hjoin; [|now apply IH].
  right. exists f. f_equal.
  destruct (filter (joins history) fs) as [|f' matching] eqn:Hfilter;
    [reflexivity|].
  exfalso. apply Hf.
  assert (Hin : In f' (filter (joins history) fs))
    by (rewrite Hfilter; now left).
  apply filter_In in Hin. destruct Hin as [Hin Hjoin'].
  unfold joins in *. destruct (database.id history); [|discriminate].
  apply Z.eqb_eq in Hjoin, Hjoin'. rewrite <- Hjoin, Hjoin'. now apply in_map.
Qed.

Lemma outerjoin_one_per_turn histories feedbacks :
  NoDup (map database_feedback.message_id feedbacks) ->
  outerjoin histories feedbacks
  = map (fun history => (history, rating_for feedbacks history)) histories.
Proof.
  intros Hdistinct. unfold outerjoin, rating_for.
  induction histories as [|h hs IH]; [reflexivity|].
  rewrite flat_map_head, IH. rewrite map_cons.
  destruct (filter_joins_at_most_one feedbacks h Hdistinct) as [->|[f ->]];
    reflexivity.
Qed.

Lemma In_displayed s rows s' row :
  get_history_for_display session self s = (Ok rows, s') ->
  In row rows <->
  exists history shown,
    row = (database.id history, database.user_message history,
           database.bot_response history, shown) /\
    In (history, shown) (outerjoin (chat_history (world s)) (feedback_table s)) /\
    database.session_id history = rag_chain.session_id self.
Proof.
  unfold get_history_for_display.
  destruct (database_feedback.join_fault _ _ _); [discriminate|].
  intros [= <- _]. rewrite in_map_iff. split.
  - intros [[history shown] [<- Hin]]. exists history, shown.
    split; [reflexivity|].
    apply (Permutation_in _ (sort_forward_perm _ _ _)) in Hin.
    apply filter_In in Hin. destruct Hin as [Hin Hsession].
    split; [assumption|]. now apply String.eqb_eq.
  - intros [history [shown [-> [Hin Hsession]]]]. exists (history, shown).
    split; [reflexivity|].
    apply (Permutation_in _ (Permutation_sym (sort_forward_perm _ _ _))).
    apply filter_In. split; [assumption|]. now apply String.eqb_eq.
Qed.

(** X14. A feedback that [save_feedback] stored is what
    [get_history_for_display] shows next: every turn of the session stored
    under that message identifier is listed with the rating given, and with
    no other rating when no two feedback rows were on the same message. *)
Theorem saved_feedback_is_displayed message_id rating comment s s1 rows s2 :
  save_feedback session clock message_id rating comment s = (Ok tt, s1) ->
  get_history_for_display session self s1 = (Ok rows, s2) ->
  (forall history,
      In history (chat_history (world s)) ->
      database.session_id history = rag_chain.session_id self ->
      database.id history = Some message_id ->
      In (Some message_id, database.user_message history,
          database.bot_response history, Some rating) rows) /\
  (NoDup (map database_feedback.message_id (feedback_table s)) ->
   forall user bot shown,
     In (Some message_id, user, bot, shown) rows -> shown = Some rating).
Proof.
  intros Hsave Hshow.
  destruct (save_feedback_first _ _ _ _ _ Hsave)
    as [saved [Hfind [Hrating _]]].
  apply find_some in Hfind. destruct Hfind as [Hsaved Hof].
  unfold of_message in Hof. apply Z.eqb_eq in Hof.
  pose proof (save_feedback_turns _ _ _ _ _ _ Hsave) as Hturns.
  split.
  - intros history Hin Hsession Hid.
    apply (In_displayed _ _ _ _ Hshow). exists history, (Some rating).
    rewrite Hid. split; [reflexivity|]. split; [|assumption].
    apply In_outerjoin. rewrite Hturns. split; [assumption|].
    right. exists saved. split; [assumption|]. split; [|now rewrite Hrating].
    unfold joins. rewrite Hid, Hof. apply Z.eqb_refl.
  - intros Hdistinct user bot shown Hin.
    apply (save_feedback_distinct _ _ _ _ _ _ Hsave) in Hdistinct.
    apply (In_displayed _ _ _ _ Hshow) in Hin.
    destruct Hin as [history [shown' [[= Hid -> -> <-] [Hin _]]]].
    apply In_outerjoin in Hin. destruct Hin as [_ Hcases].
    assert (Hjoin : joins history saved = true)
      by (unfold joins; rewrite <- Hid, Hof; apply Z.eqb_refl).
    destruct Hcases as [[Hnone _]|[f [Hf [Hjoinf ->]]]].
    + assert (Hin : In saved (filter (joins history) (feedback_table s1)))
        by (apply filter_In; auto).
      rewrite Hnone in Hin. destruct Hin.
    + assert (f = saved); [|now subst f; rewrite Hrating].
      apply (NoDup_map_same database_feedback.message_id (feedback_table s1));
        try assumption.
      unfold joins in Hjoinf, Hjoin. destruct (database.id history);
        [|discriminate].
      apply Z.eqb_eq in Hjoinf, Hjoin. congruence.
Qed.

(** X15. When no two feedback rows are on the same message,
    [get_history_for_display] changes nothing and lists each stored turn of
    the session once, in the order in which [load_history] reads them: the
    user and assistant texts listed are the messages of the loaded history. *)
Theorem display_lists_the_turns_load_history_reads s rows s' :
  NoDup (map database_feedback.message_id (feedback_table s)) ->
  get_history_for_display session self s = (Ok rows, s') ->
  s' = s /\
  flat_map messages_of_row rows = session_history self (chat_history (world s)) /\
  List.length rows
  = List.length (filter (fun row => String.eqb (database.session_id row)
                                               (rag_chain.session_id self))
                        (chat_history (world s))).
Proof.
  intros Hdistinct. unfold get_history_for_display.
  destruct (database_feedback.join_fault _ _ _); [discriminate|].
  intros [= <- <-]. split; [reflexivity|].
  rewrite (outerjoin_one_per_turn _ _ Hdistinct).
  rewrite filter_map, sort_forward_map, map_map. simpl.
  split.
  - unfold session_history.
    induction (Py.sort_forward _ _ _) as [|h hs IH]; [reflexivity|].
    simpl. now rewrite IH.
  - rewrite length_map.
    exact (Permutation_length (sort_forward_perm _ _ _)).
Qed.
End FeedbackFacts.

(** ** The scenario, continued *)

Section ScenarioMoreFacts.
Import Scenario ScenarioMore.


(** Five chunks recalled and scored, three kept. *)
Lemma rerank_length_is_clamped_witness :
  vector_retriever.similarity_search_with_score store "Qual o prazo?" 20
  = Ok stored_chunks /\
  vector_retriever.predict scorer
    (vector_retriever.pairs_of "Qual o prazo?" stored_chunks)
  = Ok [100; 900; 100; 900; 500] /\
  List.length [100; 900; 100; 900; 500] = List.length stored_chunks /\
  exists result,
    fst (vector_retriever.retrieve_context_with_scores
           settings.defaults (retriever store scorer) "Qual o prazo?" fresh)
    = Ok result /\
    List.length result = 3%nat.
Proof.
  split; [reflexivity|]. split; [reflexivity|]. split; [reflexivity|].
  exact (rerank_length_is_clamped settings.defaults (retriever store scorer)
           "Qual o prazo?" fresh stored_chunks [100; 900; 100; 900; 500]
           eq_refl eq_refl eq_refl).
Defined.

(** The three nearest chunks come back as the store gave them. *)
Lemma recall_only_keeps_an_ascending_answer_witness :
  let found := [(chunk "desconto", 120); (chunk "multa", 200); (chunk "prazo", 310)] in
  vector_retriever.similarity_search_with_score nearest_store "Qual o prazo?" 3
  = Ok found /\
  StronglySorted vector_retriever.distance_order found /\
  fst (vector_retriever.retrieve_context_vector_search_only
         settings.defaults (retriever nearest_store scorer) "Qual o prazo?" fresh)
  = Ok found.
Proof.
  intros found.
  assert (Hsorted : StronglySorted vector_retriever.distance_order found)
    by (repeat constructor).
  split; [reflexivity|]. split; [exact Hsorted|].
  exact (recall_only_keeps_an_ascending_answer settings.defaults
           (retriever nearest_store scorer) "Qual o prazo?" fresh found
           eq_refl Hsorted).
Defined.

(** The scorer agrees with the store: the first three recalled are kept. *)
Lemma rerank_keeps_a_descending_scoring_witness :
  let recalled := [(chunk "desconto", 120); (chunk "multa", 200); (chunk "prazo", 310);
                   (chunk "parcelas", 310); (chunk "adesao", 450)] in
  let scores := [950; 700; 400; 400; 50] in
  vector_retriever.similarity_search_with_score nearest_store "Qual o prazo?" 20
  = Ok recalled /\
  vector_retriever.predict agreeing_scorer
    (vector_retriever.pairs_of "Qual o prazo?" recalled) = Ok scores /\
  StronglySorted vector_retriever.relevance_order (Py.zip recalled scores) /\
  fst (vector_retriever.retrieve_context_with_scores
         settings.defaults (retriever nearest_store agreeing_scorer)
         "Qual o prazo?" fresh)
  = Ok [(chunk "desconto", 950); (chunk "multa", 700); (chunk "prazo", 400)].
Proof.
  intros recalled scores.
  assert (Hsorted : StronglySorted vector_retriever.relevance_order
                      (Py.zip recalled scores))
    by (repeat constructor).
  split; [reflexivity|]. split; [reflexivity|]. split; [exact Hsorted|].
  exact (rerank_keeps_a_descending_scoring settings.defaults
           (retriever nearest_store agreeing_scorer) "Qual o prazo?" fresh
           recalled scores eq_refl eq_refl Hsorted).
Defined.

(** Two turns of the session stored: four messages, oldest turn first. *)
Lemma load_history_reads_two_messages_per_turn_witness :
  let state := rag_chain.initial_state_at clock 0 "E o desconto?" false in
  exists u,
    rag_chain.load_history sqlite self state talked = (Ok u, talked) /\
    rag_chain.u_history u
    = Some [HumanMessage "Qual o prazo?"; AIMessage "30 dias.";
            HumanMessage "E a multa?"; AIMessage "Reduzida."] /\
    List.length (session_history self (chat_history talked)) = 4%nat /\
    alternating (session_history self (chat_history talked)) = true.
Proof.
  intros state. eexists. split; [reflexivity|].
  destruct (load_history_reads_two_messages_per_turn sqlite self state talked
              _ _ eq_refl) as [_ Hhistory].
  destruct (Hhistory _ eq_refl) as [Hu [Hlength Halternating]].
  split; [exact Hu|]. split; [exact Hlength|exact Halternating].
Defined.

(** One more turn of another session: the same history. *)
Lemma load_history_ignores_other_sessions_witness :
  let state := rag_chain.initial_state_at clock 0 "E o desconto?" false in
  database.session_id other_turn <> rag_chain.session_id self /\
  exists u u',
    fst (rag_chain.load_history sqlite self state talked) = Ok u /\
    fst (rag_chain.load_history sqlite self state (stored other_turn talked)) = Ok u' /\
    u' = u.
Proof.
  intros state.
  assert (Hother : database.session_id other_turn <> rag_chain.session_id self)
    by discriminate.
  split; [exact Hother|]. do 2 eexists.
  split; [reflexivity|]. split; [reflexivity|].
  exact (load_history_ignores_other_sessions sqlite self state talked other_turn
           _ _ Hother eq_refl eq_refl).
Defined.


(** One question in the scenario: a search, a scoring, a model call. *)
Lemma generate_response_calls_in_order_witness :
  let run := ask sqlite self "Qual o prazo?" false talked in
  exists prompt,
    calls_since talked (snd run)
    = [SimilaritySearch "Qual o prazo?" 20;
       Predict (vector_retriever.pairs_of "Qual o prazo?" stored_chunks);
       AInvoke [SystemMessage prompt;
                HumanMessage "Qual o prazo?"; AIMessage "30 dias.";
                HumanMessage "E a multa?"; AIMessage "Reduzida.";
                HumanMessage "Qual o prazo?"]].
Proof.
  intros run.
  exact (generate_response_calls_in_order settings.defaults sqlite clock
           strftime_dmY self "Qual o prazo?" false talked (fst run) (snd run)
           (surjective_pairing run)).
Defined.

(** The first question of a session is the history of the second. *)
Lemma next_turn_sees_the_saved_turn_witness :
  let run := ask sqlite self "Qual o prazo?" false fresh in
  fst run = Ok {| rag_chain.r_answer := "O prazo e de 30 dias.";
                  rag_chain.r_message_id := Some 1 |} /\
  Forall (fun earlier =>
            database.session_id earlier = rag_chain.session_id self ->
            database.request_start_time earlier <= clock (ticks fresh))
         (chat_history fresh) /\
  session_history self (chat_history (snd run))
  = [HumanMessage "Qual o prazo?"; AIMessage "O prazo e de 30 dias."].
Proof.
  intros run.
  assert (Hearlier : Forall (fun earlier =>
            database.session_id earlier = rag_chain.session_id self ->
            database.request_start_time earlier <= clock (ticks fresh))
         (chat_history fresh)) by constructor.
  split; [reflexivity|]. split; [exact Hearlier|].
  exact (next_turn_sees_the_saved_turn settings.defaults sqlite clock strftime_dmY
           self "Qual o prazo?" false fresh _ 1 (snd run)
           (surjective_pairing run) eq_refl Hearlier).
Defined.

(** A question in a table with keys 3, 2 and 1 is stored under 4. *)
Lemma message_ids_stay_distinct_witness :
  let run := ask sqlite self "E o desconto?" false talked in
  fst run = Ok {| rag_chain.r_answer := "O prazo e de 30 dias.";
                  rag_chain.r_message_id := Some 4 |} /\
  ~ In (Some 4) (map database.id (chat_history talked)) /\
  NoDup (map database.id (chat_history (snd run))).
Proof.
  intros run.
  destruct (message_ids_stay_distinct settings.defaults sqlite clock strftime_dmY
              self "E o desconto?" false talked (fst run) (snd run)
              (surjective_pairing run)) as [Hfresh Hdistinct].
  split; [reflexivity|]. split; [exact (Hfresh _ 4 eq_refl eq_refl)|].
  apply Hdistinct. repeat constructor; simpl; intuition discriminate.
Defined.

(** A dislike on the liked turn replaces the like. *)
Lemma save_feedback_then_find_witness :
  let run := rag_chain_feedback.save_feedback sound_session clock 3 "dislike"
               (Some "Incompleta") rated in
  fst run = Ok tt /\
  (exists saved,
      find (rag_chain_feedback.of_message 3) (feedback_table (snd run)) = Some saved /\
      database_feedback.rating saved = "dislike" /\
      database_feedback.comment saved = Some "Incompleta" /\
      database_feedback.timestamp saved = clock 0) /\
  List.length (feedback_table (snd run)) = 1%nat.
Proof.
  intros run.
  destruct (save_feedback_then_find sound_session clock 3 "dislike"
              (Some "Incompleta") rated (snd run) eq_refl)
    as [Hsaved [_ [Hlength _]]].
  split; [reflexivity|]. split; [exact Hsaved|exact Hlength].
Defined.

(** A like on another turn: still one feedback per message. *)
Lemma save_feedback_keeps_one_feedback_per_message_witness :
  let run := rag_chain_feedback.save_feedback sound_session clock 1 "like" None rated in
  NoDup (map database_feedback.message_id (feedback_table rated)) /\
  NoDup (map database_feedback.message_id (feedback_table (snd run))).
Proof.
  intros run.
  assert (Hdistinct : NoDup (map database_feedback.message_id (feedback_table rated)))
    by (repeat constructor; simpl; tauto).
  split; [exact Hdistinct|].
  exact (proj1 (save_feedback_keeps_one_feedback_per_message sound_session clock
                  1 "like" None rated (fst run) (snd run) (surjective_pairing run))
               Hdistinct).
Defined.

(** The dislike is what the page lists for turn 3. *)
Lemma saved_feedback_is_displayed_witness :
  let saved := rag_chain_feedback.save_feedback sound_session clock 3 "dislike"
                 None rated in
  let shown := rag_chain_feedback.get_history_for_display sound_session self
                 (snd saved) in
  fst saved = Ok tt /\
  fst shown = Ok [(Some 1, "Qual o prazo?", "30 dias.", None);
                  (Some 3, "E a multa?", "Reduzida.", Some "dislike")] /\
  forall user bot rating,
    In (Some 3, user, bot, rating)
       [(Some 1, "Qual o prazo?", "30 dias.", None);
        (Some 3, "E a multa?", "Reduzida.", Some "dislike")] ->
    rating = Some "dislike".
Proof.
  intros saved shown.
  destruct (saved_feedback_is_displayed sound_session clock self 3 "dislike" None
              rated (snd saved) _ (snd shown) eq_refl eq_refl) as [_ Honly].
  split; [reflexivity|]. split; [reflexivity|].
  apply Honly. repeat constructor; simpl; tauto.
Defined.

(** The page lists the two turns whose messages the next question is sent with. *)
Lemma display_lists_the_turns_load_history_reads_witness :
  let shown := rag_chain_feedback.get_history_for_display sound_session self rated in
  NoDup (map database_feedback.message_id (feedback_table rated)) /\
  exists rows,
    fst shown = Ok rows /\
    flat_map rag_chain_feedback.messages_of_row rows
    = session_history self (chat_history talked) /\
    List.length rows = 2%nat.
Proof.
  intros shown.
  assert (Hdistinct : NoDup (map database_feedback.message_id (feedback_table rated)))
    by (repeat constructor; simpl; tauto).
  split; [exact Hdistinct|]. eexists. split; [reflexivity|].
  destruct (display_lists_the_turns_load_history_reads sound_session self rated
              _ (snd shown) Hdistinct eq_refl) as [_ [Hmessages Hlength]].
  split; [exact Hmessages|exact Hlength].
Defined.
End ScenarioMoreFacts.

(** ** Saving an evaluation *)

(** The quotient of two counts as a double: between 0 and 1, positive when
    the count divided is, and as near the quotient as doubles are. *)
Lemma truediv_near a b :
  0 <= a <= b -> 0 < b ->
  (0 <= truediv a b <= 1 /\
   Qabs (truediv a b * inject_Z b - inject_Z a) <= inject_Z a * (1 # 2 ^ 53))%Q /\
  ((0 < truediv a b)%Q <-> 0 < a).
Proof.
  intros Ha Hb. unfold truediv.
  set (x := a # Z.to_pos b).
  assert (Hx0 : (0 <= x)%Q) by (unfold x, Qle; simpl; lia).
  assert (Hx1 : (x <= 1)%Q)
    by (unfold x, Qle; cbn [Qnum Qden]; rewrite Z2Pos.id by lia; lia).
  assert (Hxb : (x * inject_Z b == inject_Z a)%Q)
    by (unfold x, Qeq, Qmult, inject_Z; cbn [Qnum Qden];
        rewrite Pos2Z.inj_mul, Z2Pos.id by lia; lia).
  assert (Hb0 : (0 <= inject_Z b)%Q) by (unfold Qle; simpl; lia).
  destruct (to_double_near x Hx0) as [Hp0 [Hp1 Hp2]].
  pose proof (to_double_le_1 x Hx0 Hx1) as Hp3.
  pose proof (Qmult_le_compat_r _ _ _ Hp1 Hb0) as Hq1.
  pose proof (Qmult_le_compat_r _ _ _ Hp2 Hb0) as Hq2.
  assert (Hpos : (0 < x)%Q <-> 0 < a) by (unfold x, Qlt; simpl; lia).
  set (p := to_double x) in *. set (B := inject_Z b) in *.
  set (A := inject_Z a) in *. clearbody p B A x.
  change (1 # 2 ^ 53)%Q with (1 # 9007199254740992)%Q.
  split; [split; [split; assumption|]|].
  - assert (Hpb : (p * B - A == (p - x) * B)%Q) by (rewrite <- Hxb; ring).
    assert (Hq1' : ((p - x) * B * 9007199254740992 <= A)%Q)
      by (rewrite <- Hxb; lra).
    assert (Hq2' : ((x - p) * B * 9007199254740992 <= A)%Q)
      by (rewrite <- Hxb; lra).
    rewrite Hpb. set (d := ((p - x) * B)%Q) in *.
    assert (Hd : ((x - p) * B == - d)%Q) by (unfold d; ring).
    rewrite Hd in Hq2'. clearbody d.
    apply Qabs_Qle_condition. split; lra.
  - rewrite <- Hpos. split; intros H; lra.
Qed.

Section EvaluationFacts.
Import validate_vector_db.
Context {score_type : ScoreType}.
Variable session : Session.
Variable clock : nat -> datetime.
Variable int : string -> result Z.

Lemma keyed_from_fields next rows :
  map run_id (keyed_from next rows) = map run_id rows /\
  map rank (keyed_from next rows) = map rank rows /\
  map chunk_content (keyed_from next rows) = map chunk_content rows /\
  map score (keyed_from next rows) = map score rows /\
  map is_correct_eval (keyed_from next rows) = map is_correct_eval rows.
Proof.
  revert next. induction rows as [|row rows IH]; intros next; simpl;
    [repeat split|].
  destruct (IH (next + 1)) as [-> [-> [-> [-> ->]]]]. repeat split.
Qed.

Lemma get_items {V} (d : list (Z * V)) (default : V) :
  NoDup (map fst d) ->
  map (fun key => get d key default) (map fst d) = map snd d.
Proof.
  induction d as [|[key value] d IH]; [reflexivity|].
  simpl. intros Hdistinct. inversion_clear Hdistinct as [|? ? Hkey Hd].
  unfold get at 1. simpl. rewrite Z.eqb_refl. simpl. f_equal.
  rewrite <- (IH Hd). apply map_ext_in. intros key' Hin.
  unfold get. simpl.
  destruct (Z.eqb_spec key key') as [->|_]; [contradiction|reflexivity].
Qed.

Lemma filter_length_map {A} (p : A -> bool) l :
  List.length (filter p l) = List.length (filter (fun b : bool => b) (map p l)).
Proof.
  induction l as [|x l IH]; [reflexivity|].
  simpl. destruct (p x); simpl; now rewrite IH.
Qed.

Lemma existsb_filter {A} (p : A -> bool) l :
  existsb p l = true <-> filter p l <> [].
Proof.
  induction l as [|x l IH]; simpl; [split; [discriminate|congruence]|].
  destruct (p x); simpl; [split; [discriminate|reflexivity]|exact IH].
Qed.

(** The chunks built for the items are marked as the evaluations say. *)
Lemma marked_correct_count run_id next hit_rate_evals
    (results_map : list (Z * (Document * Score))) :
  map fst hit_rate_evals = map fst results_map ->
  NoDup (map fst results_map) ->
  List.length
    (marked_correct
       (keyed_from next (map (chunk_entry int run_id hit_rate_evals) results_map)))
  = List.length (filter snd hit_rate_evals).
Proof.
  intros Hcover Hdistinct. unfold marked_correct.
  rewrite (filter_length_map (fun row => is_correct_eval row =? 1)).
  rewrite (filter_length_map snd hit_rate_evals).
  rewrite <- (map_map is_correct_eval (fun z => z =? 1)).
  destruct (keyed_from_fields next
              (map (chunk_entry int run_id hit_rate_evals) results_map))
    as [_ [_ [_ [_ ->]]]].
  do 2 f_equal.
  rewrite <- (get_items hit_rate_evals false) by now rewrite Hcover.
  rewrite Hcover, !map_map. apply map_ext. intros [rank [doc s]]. simpl.
  now destruct (get hit_rate_evals rank false).
Qed.

Lemma next_run_id_above table i :
  In (Some i) (map id table) -> i < next_run_id table.
Proof.
  unfold next_run_id.
  induction table as [|row table IH]; cbn [fold_right map In]; [tauto|].
  intros [Hrow|Hin].
  - rewrite Hrow. lia.
  - specialize (IH Hin). destruct (id row); lia.
Qed.

(** X16. When [save_evaluation_to_db] shows an error, no chunk row was
    stored; the run row was stored all the same when the step that raised is
    the commit of the chunks. *)
Theorem failed_evaluation_stores_no_chunk
    query search_type results hit_rate_evals mrr_score s e s' :
  save_evaluation_to_db session clock int query search_type results
    hit_rate_evals mrr_score s = (st_error e, s') ->
  validation_retrieved_chunks s' = validation_retrieved_chunks s /\
  ((validation_runs s' = validation_runs s /\
    exists run_entry, run_commit_fault session (validation_runs s) run_entry = Some e)
   \/
   (exists run_entry chunk_entries,
       validation_runs s' = (validation_runs s ++ [run_entry])%list /\
       List.length chunk_entries = List.length results /\
       chunks_commit_fault session (validation_retrieved_chunks s) chunk_entries
       = Some e)).
Proof.
  unfold save_evaluation_to_db. cbv zeta. simpl validation_runs.
  destruct (run_commit_fault _ _ _) as [e1|] eqn:Hrun.
  - intros [= <- <-]. split; [reflexivity|]. left. eauto.
  - simpl validation_retrieved_chunks.
    destruct (chunks_commit_fault _ _ _) as [e2|] eqn:Hchunks; [|discriminate].
    intros [= <- <-]. split; [reflexivity|]. right.
    do 2 eexists. split; [reflexivity|]. split; [|exact Hchunks].
    rewrite <- (length_map rank).
    destruct (keyed_from_fields
                (next_chunk_id (validation_retrieved_chunks s))
                (map (chunk_entry int (next_run_id (validation_runs s))
                        hit_rate_evals) results))
      as [_ [-> _]].
    now rewrite !length_map.
Qed.

(** X17. When [save_evaluation_to_db] shows success, it stored one run under
    a key no run had, and one chunk row per result, in rank order, each with
    the rank, the text and the score of its result and the key of the run. *)
Theorem saved_evaluation_stores_each_result
    query search_type results hit_rate_evals mrr_score s new_run_id s' :
  save_evaluation_to_db session clock int query search_type results
    hit_rate_evals mrr_score s = (st_success new_run_id, s') ->
  ~ In (Some new_run_id) (map id (validation_runs s)) /\
  exists run_entry chunk_entries,
    validation_runs s' = (validation_runs s ++ [run_entry])%list /\
    id run_entry = Some new_run_id /\
    validation_retrieved_chunks s'
    = (validation_retrieved_chunks s ++ chunk_entries)%list /\
    map rank chunk_entries = map fst results /\
    map chunk_content chunk_entries
    = map (fun item => page_content (fst (snd item))) results /\
    map score chunk_entries = map (fun item => snd (snd item)) results /\
    Forall (fun row => run_id row = new_run_id) chunk_entries.
Proof.
  unfold save_evaluation_to_db. cbv zeta. simpl validation_runs.
  destruct (run_commit_fault _ _ _) as [e1|]; [discriminate|].
  simpl validation_retrieved_chunks.
  destruct (chunks_commit_fault _ _ _) as [e2|]; [discriminate|].
  intros [= <- <-]. split.
  { intros Hin. apply next_run_id_above in Hin. lia. }
  do 2 eexists. split; [reflexivity|]. split; [reflexivity|].
  split; [reflexivity|].
  destruct (keyed_from_fields
              (next_chunk_id (validation_retrieved_chunks s))
              (map (chunk_entry int (next_run_id (validation_runs s))
                      hit_rate_evals) results))
    as [Hrun [-> [-> [-> _]]]].
  rewrite !map_map.
  split; [apply map_ext; now intros [rank [doc sc]]|].
  split; [apply map_ext; now intros [rank [doc sc]]|].
  split; [apply map_ext; now intros [rank [doc sc]]|].
  apply Forall_forall. intros row Hin.
  apply (in_map run_id) in Hin. rewrite Hrun, map_map in Hin.
  apply in_map_iff in Hin. destruct Hin as [[rank [doc sc]] [Heq _]].
  now rewrite <- Heq.
Qed.

(** X18. When the evaluations are on the ranks of the results, the metrics
    of the stored run agree with its stored chunks: the hit rate is 1 when
    some chunk is marked correct and 0 otherwise, and the precision is the
    double of the number of chunks marked correct divided by the number of
    results (0 when there is no result).  So the precision is between 0 and
    1, positive exactly when some chunk is marked correct, and its product
    with the number of results is within the rounding of doubles of the
    number of chunks marked correct: at most that number over 2 ^ 53 away. *)
Theorem saved_metrics_agree_with_saved_chunks
    query search_type results hit_rate_evals mrr_score s new_run_id s' :
  save_evaluation_to_db session clock int query search_type results
    hit_rate_evals mrr_score s = (st_success new_run_id, s') ->
  map fst hit_rate_evals = map fst results ->
  NoDup (map fst results) ->
  exists run_entry chunk_entries,
    validation_runs s' = (validation_runs s ++ [run_entry])%list /\
    validation_retrieved_chunks s'
    = (validation_retrieved_chunks s ++ chunk_entries)%list /\
    mrr_eval run_entry = mrr_score /\
    (hit_rate_eval run_entry = 1 <-> marked_correct chunk_entries <> []) /\
    (hit_rate_eval run_entry = 0 <-> marked_correct chunk_entries = []) /\
    let k := Z.of_nat (List.length results) in
    let marked := Z.of_nat (List.length (marked_correct chunk_entries)) in
    marked <= k /\
    precision_at_k_eval run_entry = (if 0 <? k then truediv marked k else 0%Q) /\
    (Qabs (precision_at_k_eval run_entry * inject_Z k - inject_Z marked)
     <= inject_Z marked * (1 # 2 ^ 53))%Q /\
    (0 <= precision_at_k_eval run_entry <= 1)%Q /\
    ((0 < precision_at_k_eval run_entry)%Q <-> marked_correct chunk_entries <> []).
Proof.
  unfold save_evaluation_to_db. cbv zeta. simpl validation_runs.
  destruct (run_commit_fault _ _ _) as [e1|]; [discriminate|].
  simpl validation_retrieved_chunks.
  destruct (chunks_commit_fault _ _ _) as [e2|]; [discriminate|].
  intros [= <- <-] Hcover Hdistinct.
  do 2 eexists. split; [reflexivity|]. split; [reflexivity|].
  cbn [mrr_eval hit_rate_eval precision_at_k_eval].
  split; [reflexivity|].
  pose proof (marked_correct_count (next_run_id (validation_runs s))
                (next_chunk_id (validation_retrieved_chunks s))
                hit_rate_evals results Hcover Hdistinct) as Hcount.
  set (marked := marked_correct _) in *.
  assert (Hhits : filter snd hit_rate_evals <> [] <-> marked <> []).
  { destruct marked, (filter snd hit_rate_evals); simpl in Hcount;
      split; congruence. }
  assert (Hle : (List.length (filter snd hit_rate_evals) <= List.length results)%nat).
  { rewrite <- (length_map fst results), <- Hcover, length_map.
    apply filter_length_le. }
  split; [|split]; clearbody marked.
  - rewrite <- Hhits, <- existsb_filter.
    destruct (existsb snd hit_rate_evals); split; congruence.
  - destruct (existsb snd hit_rate_evals) eqn:Hany.
    + apply existsb_filter, Hhits in Hany.
      split; [discriminate|intros Hnone; contradiction].
    + split; [intros _|reflexivity].
      destruct marked; [reflexivity|].
      assert (Hsome : existsb snd hit_rate_evals = true)
        by (apply existsb_filter, Hhits; discriminate).
      congruence.
  - rewrite <- Hcount in *. clear Hcount Hhits Hcover Hdistinct.
    assert (Hsome : marked <> [] <-> 0 < Z.of_nat (List.length marked))
      by (destruct marked; simpl; split; (congruence || lia)).
    set (hits := Z.of_nat (List.length marked)) in *.
    set (k := Z.of_nat (List.length results)) in *.
    assert (Hhk : 0 <= hits <= k) by (unfold hits, k; lia).
    clearbody hits k. cbv zeta.
    split; [lia|]. split; [reflexivity|].
    destruct (Z.ltb_spec 0 k) as [Hpos|Hzero].
    + destruct (truediv_near hits k Hhk Hpos) as [[Hbounds Hnear] Hpositive].
      split; [exact Hnear|]. split; [exact Hbounds|].
      now rewrite Hsome.
    + assert (hits = 0) as -> by lia.
      split; [|split; [split; discriminate|]].
      * apply Qabs_Qle_condition. split; unfold Qle; simpl; lia.
      * rewrite Hsome. split; [discriminate|lia].
Qed.

Lemma find_rank {A} (items : list A) i n entry :
  nth_error items n = Some entry ->
  find (fun item => fst item =? i + Z.of_nat n + 1)
       (map (fun e => (fst e + 1, snd e)) (enumerate_from i items))
  = Some (i + Z.of_nat n + 1, entry).
Proof.
  revert i n. induction items as [|item items IH]; intros i [|n]; simpl;
    try discriminate.
  - intros [= ->]. replace (i + 0 + 1) with (i + 1) by lia.
    now rewrite Z.eqb_refl.
  - intros Hnth. destruct (Z.eqb_spec (i + 1) (i + Z.pos (Pos.of_succ_nat n) + 1));
      [lia|].
    replace (i + Z.pos (Pos.of_succ_nat n) + 1) with (i + 1 + Z.of_nat n + 1) by lia.
    now apply IH.
Qed.

Lemma ranks_above {A} (items : list A) i key :
  In key (map fst (map (fun e => (fst e + 1, snd e)) (enumerate_from i items))) ->
  i < key.
Proof.
  revert i. induction items as [|item items IH]; intros i; simpl; [tauto|].
  intros [<-|Hin]; [lia|]. apply IH in Hin. lia.
Qed.

Lemma ranks_distinct {A} (items : list A) i :
  NoDup (map fst (map (fun e => (fst e + 1, snd e)) (enumerate_from i items))).
Proof.
  revert i. induction items as [|item items IH]; intros i; simpl; constructor;
    [|apply IH].
  intros Hin. apply ranks_above in Hin. lia.
Qed.

Lemma enumerate_from_items {A} (items : list A) i :
  map snd (map (fun e => (fst e + 1, snd e)) (enumerate_from i items)) = items.
Proof.
  revert i. induction items as [|item items IH]; intros i; simpl; [reflexivity|].
  now rewrite IH.
Qed.

(** X19. The [results_map] of a list of results holds the results in their
    order under the ranks 1, 2, ...: the ranks are distinct, and the entry at
    position [n] of the list is found under rank [n + 1]. *)
Theorem results_map_ranks_from_one results_with_scores n entry :
  nth_error results_with_scores n = Some entry ->
  NoDup (map fst (results_map results_with_scores)) /\
  map snd (results_map results_with_scores) = results_with_scores /\
  find (fun item => fst item =? Z.of_nat n + 1) (results_map results_with_scores)
  = Some (Z.of_nat n + 1, entry).
Proof.
  intros Hnth. unfold results_map.
  split; [apply ranks_distinct|]. split; [apply enumerate_from_items|].
  exact (find_rank results_with_scores 0 n entry Hnth).
Qed.
End EvaluationFacts.

(** ** The scenario: an evaluation *)

Section ScenarioEvaluationFacts.
Import Scenario ScenarioMore.

(** The chunks cannot be committed: the run stays, alone. *)
Lemma failed_evaluation_stores_no_chunk_witness :
  fst (evaluate engine_full) = validate_vector_db.st_error disk_full /\
  validate_vector_db.validation_retrieved_chunks (snd (evaluate engine_full)) = [] /\
  List.length (validate_vector_db.validation_runs (snd (evaluate engine_full)))
  = 1%nat.
Proof.
  destruct (failed_evaluation_stores_no_chunk engine_full clock int
              "Qual o prazo?" "reranked_USER"
              ranked judged 1 unevaluated
              disk_full (snd (evaluate engine_full)) eq_refl) as [Hchunks _].
  split; [reflexivity|]. split; [exact Hchunks|reflexivity].
Defined.

(** Three results saved under run 1, ranks 1 to 3. *)
Lemma saved_evaluation_stores_each_result_witness :
  fst (evaluate engine) = validate_vector_db.st_success 1 /\
  exists run_entry chunk_entries,
    validate_vector_db.validation_runs (snd (evaluate engine)) = [run_entry] /\
    validate_vector_db.id run_entry = Some 1 /\
    validate_vector_db.validation_retrieved_chunks (snd (evaluate engine))
    = chunk_entries /\
    map validate_vector_db.rank chunk_entries = [1; 2; 3] /\
    Forall (fun row => validate_vector_db.run_id row = 1) chunk_entries.
Proof.
  destruct (saved_evaluation_stores_each_result engine clock int
              "Qual o prazo?" "reranked_USER"
              ranked judged 1 unevaluated
              1 (snd (evaluate engine)) eq_refl)
    as [_ [run_entry [chunk_entries [Hruns [Hid [Hchunks [Hranks [_ [_ Hrun]]]]]]]]].
  split; [reflexivity|]. exists run_entry, chunk_entries.
  split; [exact Hruns|]. split; [exact Hid|]. split; [exact Hchunks|].
  split; [exact Hranks|exact Hrun].
Defined.

(** Two of three judged correct: hit rate 1, and as precision the double
    of two thirds, which times 3 is not 2. *)
Lemma saved_metrics_agree_with_saved_chunks_witness :
  fst (evaluate engine) = validate_vector_db.st_success 1 /\
  map fst judged = map fst ranked /\
  NoDup (map fst ranked) /\
  exists run_entry chunk_entries,
    validate_vector_db.validation_runs (snd (evaluate engine)) = [run_entry] /\
    validate_vector_db.validation_retrieved_chunks (snd (evaluate engine))
    = chunk_entries /\
    validate_vector_db.hit_rate_eval run_entry = 1 /\
    List.length (validate_vector_db.marked_correct chunk_entries) = 2%nat /\
    (validate_vector_db.precision_at_k_eval run_entry
     == 6004799503160661 # 9007199254740992)%Q /\
    ~ (validate_vector_db.precision_at_k_eval run_entry * 3 == 2)%Q /\
    (Qabs (validate_vector_db.precision_at_k_eval run_entry * 3 - 2)
     <= 2 * (1 # 2 ^ 53))%Q.
Proof.
  assert (Hdistinct : NoDup (map fst ranked))
    by (repeat constructor; simpl; intuition discriminate).
  destruct (saved_metrics_agree_with_saved_chunks engine clock int
              "Qual o prazo?" "reranked_USER"
              ranked judged 1 unevaluated
              1 (snd (evaluate engine)) eq_refl eq_refl Hdistinct)
    as [run_entry [chunk_entries
          [Hruns [Hchunks [_ [Hhit [_ [_ [Hprecision [Hnear _]]]]]]]]]].
  split; [reflexivity|]. split; [reflexivity|]. split; [exact Hdistinct|].
  exists run_entry, chunk_entries.
  split; [exact Hruns|]. split; [exact Hchunks|].
  assert (Hmarked : List.length (validate_vector_db.marked_correct chunk_entries)
                    = 2%nat).
  { simpl in Hchunks. now rewrite <- Hchunks. }
  rewrite Hmarked in Hprecision, Hnear.
  change (List.length ranked) with 3%nat in Hprecision, Hnear.
  split; [|split; [exact Hmarked|split; [|split; [|exact Hnear]]]].
  - apply Hhit. intros Hnone. now rewrite Hnone in Hmarked.
  - rewrite Hprecision. vm_compute. reflexivity.
  - rewrite Hprecision. vm_compute. discriminate.
Defined.

(** The second result is found under rank 2. *)
Lemma results_map_ranks_from_one_witness :
  nth_error reranked 1 = Some (chunk "adesao", 900) /\
  NoDup (map fst ranked) /\
  find (fun item => fst item =? 2) ranked
  = Some (2, (chunk "adesao", 900)).
Proof.
  destruct (results_map_ranks_from_one (score_type := milli_scores) reranked 1
              (chunk "adesao", 900) eq_refl)
    as [Hdistinct [_ Hfind]].
  split; [reflexivity|]. split; [exact Hdistinct|exact Hfind].
Defined.
End ScenarioEvaluationFacts.
